(** * Biblioteca: the loan, search and statistics operations of [BibliotecaAPI]

    A shallow embedding of [BibliotecaAPI.cerca_libri], [crea_prestito] and
    [statistiche] (biblioteca_python_setup.py) over a model of the document
    store they talk to, followed by the properties of the specification
    settled against it; then [connect_database], the data conversion of
    [generate_api_data] and the commands [cerca] and [stats], with further
    properties read off the code. *)

From Stdlib Require Import ZArith String Ascii List Lia Bool.
From stdpp Require Import base option list gmap strings fin_maps pretty sorting.

Local Open Scope string_scope.
Local Open Scope Z_scope.

(** ** Values and documents *)

(** An ObjectId is kept as its 24-digit lowercase hexadecimal rendering. *)
Definition oid := string.

(** The values a field of a stored document holds.  Datetimes are counted in
    microseconds from 0001-01-01T00:00:00.  Floating-point numbers are left
    out of the universe: the program itself writes integer counts only,
    and a count a different writer stored as a double is outside what the
    statements about integer counts cover. *)
#[local] Set Warnings "-register-all".
Inductive value : Type :=
| VNone
| VBool (b : bool)
| VInt (n : Z)
| VStr (s : string)
| VOid (o : oid)
| VDate (t : Z)
| VList (l : list value).

Fixpoint value_eqb (a b : value) : bool :=
  match a, b with
  | VNone, VNone => true
  | VBool x, VBool y => Bool.eqb x y
  | VInt x, VInt y => Z.eqb x y
  | VStr x, VStr y => String.eqb x y
  | VOid x, VOid y => String.eqb x y
  | VDate x, VDate y => Z.eqb x y
  | VList xs, VList ys =>
      (fix go (xs ys : list value) : bool :=
         match xs, ys with
         | [], [] => true
         | x :: xs', y :: ys' => value_eqb x y && go xs' ys'
         | _, _ => false
         end) xs ys
  | _, _ => false
  end.

Lemma value_eqb_spec : ∀ a b : value, value_eqb a b = true ↔ a = b.
Proof.
  fix IH 1. intros a b.
  destruct a as [|x|x|x|x|x|xs], b as [|y|y|y|y|y|ys]; simpl;
    try (split; [discriminate | discriminate]); try (split; reflexivity).
  - rewrite Bool.eqb_true_iff. split; congruence.
  - rewrite Z.eqb_eq. split; congruence.
  - rewrite String.eqb_eq. split; congruence.
  - rewrite String.eqb_eq. split; congruence.
  - rewrite Z.eqb_eq. split; congruence.
  - revert ys. induction xs as [|x xs IHxs]; intros [|y ys];
      try (split; [discriminate | discriminate]); try (split; reflexivity).
    rewrite andb_true_iff, IH, IHxs. split.
    + intros [-> E]. congruence.
    + intros E. injection E as -> ->. split; reflexivity.
Qed.

#[global] Instance value_eq_dec : EqDecision value.
Proof.
  intros a b. destruct (value_eqb a b) eqn:E.
  - left. apply value_eqb_spec, E.
  - right. intros H. apply value_eqb_spec in H. congruence.
Defined.

(** A document is a Python dict from field names to values. *)
Abbreviation doc := (gmap string value).

(** Python truth value of a field value ([bool(x)]). *)
Definition truthy (v : value) : bool :=
  match v with
  | VNone => false
  | VBool b => b
  | VInt n => negb (Z.eqb n 0)
  | VStr s => negb (String.eqb s EmptyString)
  | VOid _ => true
  | VDate _ => true
  | VList l => match l with [] => false | _ => true end
  end.

(** [bool(d.get(k))]: a missing key gives [None], which is false. *)
Definition get_truthy (d : doc) (k : string) : bool :=
  match d !! k with Some v => truthy v | None => false end.

(** [bool(d)] for a dict: false exactly when it has no key. *)
Definition dict_truthy (d : doc) : bool := negb (bool_decide (d = ∅)).

(** ** ObjectId

    Modelled from the bson library: [ObjectId(s)] accepts a string of 24
    hexadecimal digits and raises [InvalidId] on any other string.  Two
    spellings that differ in letter case denote the same id.  The library
    also lets through a 24-character string of hexadecimal pairs separated
    by ASCII whitespace, which gives an id of fewer than twelve bytes that
    no stored document carries; such a string counts as malformed here. *)

Definition is_hex_digit (c : ascii) : bool :=
  let n := nat_of_ascii c in
  ((48 <=? n) && (n <=? 57) || (97 <=? n) && (n <=? 102)
   || (65 <=? n) && (n <=? 70))%nat.

Definition lower_hex (c : ascii) : ascii :=
  let n := nat_of_ascii c in
  if ((65 <=? n) && (n <=? 70))%nat then ascii_of_nat (n + 32) else c.

Definition ObjectId (s : string) : option oid :=
  let cs := list_ascii_of_string s in
  if (Nat.eqb (List.length cs) 24 && forallb is_hex_digit cs)%bool
  then Some (string_of_list_ascii (List.map lower_hex cs))
  else None.

(** ** Exceptions and outcomes *)

Inductive exn : Type :=
| InvalidId (s : string)          (* bson.errors.InvalidId *)
| TypeError                       (* ordering comparison between unordered types *)
| KeyError (k : string)           (* d[k] on a missing key *)
| OverflowError                   (* timedelta or datetime out of range *)
| StoreError (call : nat)         (* the store round-trip number [call] failed *)
| DuplicateKeyError (o : oid)     (* insert of an _id already in the collection *)
| WriteError (k : string).        (* $inc applied to a non-numeric field *)

Inductive outcome (A : Type) : Type :=
| Ret (a : A)
| Raise (e : exn).
Arguments Ret {A} a.
Arguments Raise {A} e.

(** ** The document store and its environment

    The store is the external collaborator of the methods.  It is modelled
    as five collections, each the list of its documents in insertion
    (natural) order; it keeps a document as it was given, and a round-trip
    that fails leaves it untouched. *)

Inductive coll : Type := Autori | Categorie | Libri | Utenti | Prestiti.

Record DB : Type := mkDB {
  autori : list doc;
  categorie : list doc;
  libri : list doc;
  utenti : list doc;
  prestiti : list doc
}.

Definition coll_get (c : coll) (d : DB) : list doc :=
  match c with
  | Autori => autori d
  | Categorie => categorie d
  | Libri => libri d
  | Utenti => utenti d
  | Prestiti => prestiti d
  end.

Definition coll_set (c : coll) (l : list doc) (d : DB) : DB :=
  match c with
  | Autori => mkDB l (categorie d) (libri d) (utenti d) (prestiti d)
  | Categorie => mkDB (autori d) l (libri d) (utenti d) (prestiti d)
  | Libri => mkDB (autori d) (categorie d) l (utenti d) (prestiti d)
  | Utenti => mkDB (autori d) (categorie d) (libri d) l (prestiti d)
  | Prestiti => mkDB (autori d) (categorie d) (libri d) (utenti d) l
  end.

(** What a call runs against: the database, the wall clock ([clock n] is
    the n-th reading of [datetime.now()]), the ids the driver hands to
    inserted documents, the schedule of failing store round-trips, the
    store's text index, the error log, and the database snapshots left by
    the writes performed so far (newest first). *)
Record World : Type := mkWorld {
  db : DB;
  clock : nat → Z;
  ticks : nat;
  idgen : nat → oid;
  nids : nat;
  fault : nat → bool;
  calls : nat;
  text_search : string → doc → bool;
  log : list (string * exn);
  hist : list DB
}.

Definition set_db (d : DB) (w : World) : World :=
  mkWorld d (clock w) (ticks w) (idgen w) (nids w) (fault w) (calls w)
          (text_search w) (log w) (hist w).
Definition set_ticks (n : nat) (w : World) : World :=
  mkWorld (db w) (clock w) n (idgen w) (nids w) (fault w) (calls w)
          (text_search w) (log w) (hist w).
Definition set_nids (n : nat) (w : World) : World :=
  mkWorld (db w) (clock w) (ticks w) (idgen w) n (fault w) (calls w)
          (text_search w) (log w) (hist w).
Definition set_calls (n : nat) (w : World) : World :=
  mkWorld (db w) (clock w) (ticks w) (idgen w) (nids w) (fault w) n
          (text_search w) (log w) (hist w).
Definition set_log (l : list (string * exn)) (w : World) : World :=
  mkWorld (db w) (clock w) (ticks w) (idgen w) (nids w) (fault w) (calls w)
          (text_search w) l (hist w).
Definition set_hist (h : list DB) (w : World) : World :=
  mkWorld (db w) (clock w) (ticks w) (idgen w) (nids w) (fault w) (calls w)
          (text_search w) (log w) h.

(** ** The monad of the API methods: state passing with exceptions *)

Definition M (A : Type) : Type := World → outcome A * World.

#[global] Instance M_ret : MRet M := λ A a w, (Ret a, w).
#[global] Instance M_bind : MBind M := λ A B f m w,
  match m w with
  | (Ret a, w') => f a w'
  | (Raise e, w') => (Raise e, w')
  end.

Definition raise {A : Type} (e : exn) : M A := λ w, (Raise e, w).

(** [try: body except Exception as e: handler e]. *)
Definition try_except {A : Type} (body : M A) (handler : exn → M A) : M A :=
  λ w, match body w with
       | (Ret a, w') => (Ret a, w')
       | (Raise e, w') => handler e w'
       end.

(** Lifts a partial pure computation. *)
Definition lift {A : Type} (o : outcome A) : M A := λ w, (o, w).

(** [datetime.now()]. *)
Definition datetime_now : M Z :=
  λ w, (Ret (clock w (ticks w)), set_ticks (S (ticks w)) w).

(** [logger.error(f"{msg}: {e}")]. *)
Definition logger_error (msg : string) (e : exn) : M unit :=
  λ w, (Ret tt, set_log ((msg, e) :: log w) w).

(** A read round-trip: fails when the schedule says so, else answers from
    the current database. *)
Definition store_read {A : Type} (f : World → A) : M A :=
  λ w, let w1 := set_calls (S (calls w)) w in
       if fault w (calls w) then (Raise (StoreError (calls w)), w1)
       else (Ret (f w), w1).

(** A write round-trip: a failing one leaves the database as it was; a
    completed one installs the new database and records the snapshot. *)
Definition store_write {A : Type} (f : DB → outcome (A * DB)) : M A :=
  λ w, let w1 := set_calls (S (calls w)) w in
       if fault w (calls w) then (Raise (StoreError (calls w)), w1)
       else match f (db w) with
            | Ret (a, d) => (Ret a, set_hist (d :: hist w) (set_db d w1))
            | Raise e => (Raise e, w1)
            end.

(** ** Query filters

    A filter is the dict handed to [find_one], [count_documents],
    [update_one] or a [$match] stage: field name to condition, all of which
    must hold.  The key ["$text"] carries the text-search operator. *)

Inductive cond : Type :=
| CEq (v : value)        (* {field: v} *)
| CLt (v : value)        (* {field: {'$lt': v}} *)
| CText (q : string).    (* {'$text': {'$search': q}} *)

Abbreviation filter_doc := (gmap string cond).

Definition value_lt (a b : value) : bool :=
  match a, b with
  | VInt x, VInt y => x <? y
  | VDate x, VDate y => x <? y
  | VBool x, VBool y => negb x && y
  | _, _ => false
  end.

(** Equality match of the store: the field holds the value, or holds an
    array with the value among its elements; a null query value also
    matches a missing field. *)
Definition field_eq (f : option value) (v : value) : bool :=
  match f with
  | Some (VList l) =>
      bool_decide (VList l = v) || existsb (λ x, bool_decide (x = v)) l
  | Some x => bool_decide (x = v)
  | None => bool_decide (v = VNone)
  end.

(** [$lt] match: values of another type never compare (type bracketing);
    an array matches when one of its elements does. *)
Definition field_lt (f : option value) (v : value) : bool :=
  match f with
  | Some (VList l) => existsb (λ x, value_lt x v) l
  | Some x => value_lt x v
  | None => false
  end.

Definition clause_holds (ts : string → doc → bool) (d : doc)
    (k : string) (c : cond) : bool :=
  match c with
  | CEq v => field_eq (d !! k) v
  | CLt v => field_lt (d !! k) v
  | CText q => ts q d
  end.

Definition matches (ts : string → doc → bool) (f : filter_doc) (d : doc) : bool :=
  bool_decide (map_Forall (λ k c, clause_holds ts d k c = true) f).

(** ** Collection operations *)

(** [coll.find_one(f)]: the first matching document in natural order. *)
Definition find_one (c : coll) (f : filter_doc) : M (option doc) :=
  store_read (λ w, List.find (matches (text_search w) f) (coll_get c (db w))).

(** [coll.count_documents(f)].  A datetime of the filter is compared as
    the method computed it, to the microsecond.  The driver sends it in
    whole milliseconds as well, which shows only for a stored datetime
    that falls within the millisecond of the one in the filter; that cut
    is not modelled. *)
Definition count_documents (c : coll) (f : filter_doc) : M nat :=
  store_read (λ w,
    List.length (List.filter (matches (text_search w) f) (coll_get c (db w)))).

Definition has_id (o : oid) (d : doc) : bool :=
  bool_decide (d !! "_id" = Some (VOid o)).

(** A datetime as the store holds it: BSON keeps whole milliseconds, the
    driver dropping the microseconds below ([microsecond // 1000]). *)
Definition millis (t : Z) : Z := t / 1000 * 1000.

(** A value, and a document, as they are once written to the store. *)
Fixpoint bson_value (v : value) : value :=
  match v with
  | VDate t => VDate (millis t)
  | VList l => VList (List.map bson_value l)
  | _ => v
  end.

Definition bson_doc (d : doc) : doc := bson_value <$> d.
Arguments bson_doc : simpl never.

(** [coll.insert_one(d)] for a document without [_id]: the driver assigns
    the next generated id, the store refuses an id already present, and the
    document is appended as the store holds it.  Returns [inserted_id]. *)
Definition insert_one (c : coll) (d : doc) : M oid :=
  λ w, let o := idgen w (nids w) in
       store_write (λ dbs,
         if existsb (has_id o) (coll_get c dbs)
         then Raise (DuplicateKeyError o)
         else Ret (o, coll_set c
                        (coll_get c dbs ++ [<["_id" := VOid o]> (bson_doc d)])
                        dbs))
       (set_nids (S (nids w)) w).

(** The update document of [update_one]: [$inc] and [$set] parts. *)
Record update : Type := mkUpdate {
  upd_inc : list (string * Z);
  upd_set : list (string * value)
}.

(** [$inc]: a missing field is created with the amount; a non-numeric one
    is an error. *)
Definition apply_inc (d : outcome doc) (kv : string * Z) : outcome doc :=
  match d with
  | Raise e => Raise e
  | Ret d =>
      match d !! kv.1 with
      | None => Ret (<[kv.1 := VInt kv.2]> d)
      | Some (VInt n) => Ret (<[kv.1 := VInt (n + kv.2)]> d)
      | Some _ => Raise (WriteError kv.1)
      end
  end.

Definition apply_set (d : doc) (kv : string * value) : doc := <[kv.1 := kv.2]> d.

Definition apply_update (u : update) (d : doc) : outcome doc :=
  match foldl apply_inc (Ret d) (upd_inc u) with
  | Raise e => Raise e
  | Ret d' => Ret (foldl apply_set d' (upd_set u))
  end.

(** Updates the first document satisfying [p], if any. *)
Fixpoint update_first (p : doc → bool) (u : update) (l : list doc)
    : outcome (list doc) :=
  match l with
  | [] => Ret []
  | d :: r =>
      if p d then
        match apply_update u d with
        | Ret d' => Ret (d' :: r)
        | Raise e => Raise e
        end
      else
        match update_first p u r with
        | Ret r' => Ret (d :: r')
        | Raise e => Raise e
        end
  end.

(** [coll.update_one(f, u)]. *)
Definition update_one (c : coll) (f : filter_doc) (u : update) : M unit :=
  λ w, store_write (λ dbs,
         match update_first (matches (text_search w) f) u (coll_get c dbs) with
         | Ret l => Ret (tt, coll_set c l dbs)
         | Raise e => Raise e
         end) w.

(** ** Python helpers used by the methods *)

(** [d[k]]. *)
Definition getitem (d : doc) (k : string) : outcome value :=
  match d !! k with Some v => Ret v | None => Raise (KeyError k) end.

(** The integer an ordering comparison with an [int] sees; [bool] is a
    subclass of [int], every other type raises [TypeError]. *)
Definition py_int (v : value) : outcome Z :=
  match v with
  | VInt n => Ret n
  | VBool b => Ret (if b then 1 else 0)
  | _ => Raise TypeError
  end.

(** [v <= n] and [v > n] for an [int] literal [n]. *)
Definition py_le (v : value) (n : Z) : outcome bool :=
  match py_int v with Ret x => Ret (x <=? n) | Raise e => Raise e end.
Definition py_gt (v : value) (n : Z) : outcome bool :=
  match py_int v with Ret x => Ret (n <? x) | Raise e => Raise e end.

(** Truth value of an optional string argument ([if query:]). *)
Definition str_truthy (s : option string) : bool :=
  match s with Some x => negb (String.eqb x EmptyString) | None => false end.

Definition us_per_day : Z := 86400000000.
(** [datetime.max], in microseconds from [datetime.min]. *)
Definition datetime_max : Z := 3652059 * us_per_day - 1.

(** [timedelta(days=n)], as microseconds. *)
Definition timedelta_days (n : Z) : outcome Z :=
  if Z.abs n <=? 999999999 then Ret (n * us_per_day) else Raise OverflowError.

(** [t + delta] on datetimes. *)
Definition datetime_add (t delta : Z) : outcome Z :=
  if (0 <=? t + delta) && (t + delta <=? datetime_max)
  then Ret (t + delta) else Raise OverflowError.

(** [ObjectId(s)] as a step of a method. *)
Definition new_ObjectId (s : string) : M oid :=
  match ObjectId s with Some o => mret o | None => raise (InvalidId s) end.

(** ** [BibliotecaAPI.cerca_libri] *)

(** A [$lookup] stage: the documents of the foreign collection whose
    foreign field matches the local one (element-wise for a local array,
    null for a missing local field). *)
Definition lookup_stage (foreign : list doc) (foreignField : string)
    (local : option value) : list doc :=
  List.filter
    (λ fd, match local with
           | Some (VList l) => existsb (field_eq (fd !! foreignField)) l
           | Some v => field_eq (fd !! foreignField) v
           | None => field_eq (fd !! foreignField) VNone
           end)
    foreign.

(** [{k: 1}] in a [$project] stage. *)
Definition copy_field (src : doc) (k : string) (dst : doc) : doc :=
  match src !! k with Some v => <[k := v]> dst | None => dst end.

(** The [$project] stage of the search pipeline, applied to a book joined
    with its [autori_info] and [categoria_info]. *)
Definition project_libro (b : doc) (autori_info categoria_info : list doc) : doc :=
  let out :=
    foldr (copy_field b) ∅
      ["_id"; "titolo"; "isbn"; "anno_pubblicazione"; "disponibile";
       "numero_copie"] in
  let out := <["autori" := VList (omap (λ a : doc, a !! "cognome") autori_info)]> out in
  match omap (λ c : doc, c !! "nome") categoria_info with
  | n :: _ => <["categoria" := n]> out
  | [] => out
  end.

(** [list(self.db.libri.aggregate(pipeline))] for the search pipeline. *)
Definition aggregate_cerca (match_conditions : filter_doc) : M (list doc) :=
  store_read (λ w,
    List.map
      (λ b, project_libro b
              (lookup_stage (autori (db w)) "_id" (b !! "autore_ids"))
              (lookup_stage (categorie (db w)) "_id" (b !! "categoria_id")))
      (List.filter (matches (text_search w) match_conditions) (libri (db w)))).

Definition cerca_libri_body (query categoria autore : option string)
    (disponibile : option bool) : M (list doc) :=
  let match_conditions : filter_doc := ∅ in
  let match_conditions :=
    match query with
    | Some q => if str_truthy query
                then <["$text" := CText q]> match_conditions
                else match_conditions
    | None => match_conditions
    end in
  match_conditions ←
    match categoria with
    | Some c =>
        if str_truthy categoria then
          cat ← find_one Categorie {["nome" := CEq (VStr c)]};
          match cat with
          | Some cat =>
              if dict_truthy cat then
                cid ← lift (getitem cat "_id");
                mret (<["categoria_id" := CEq cid]> match_conditions)
              else mret match_conditions
          | None => mret match_conditions
          end
        else mret match_conditions
    | None => mret match_conditions
    end;
  let match_conditions :=
    match disponibile with
    | Some b => <["disponibile" := CEq (VBool b)]> match_conditions
    | None => match_conditions
    end in
  aggregate_cerca match_conditions.

Definition cerca_libri (query categoria autore : option string)
    (disponibile : option bool) : M (list doc) :=
  try_except (cerca_libri_body query categoria autore disponibile)
    (λ e, _ ← logger_error "Errore ricerca libri" e; mret []).

(** ** [BibliotecaAPI.crea_prestito] *)

(** The text under the ['error'] key: a literal of the method, or [str(e)]
    of a caught exception. *)
Inductive error_text : Type :=
| Literal (s : string)
| StrOf (e : exn).

(** The returned dict: [{'success': True, 'prestito_id': ..,
    'data_scadenza': ..}] (the due date kept as the datetime whose
    [isoformat()] is returned) or [{'success': False, 'error': ..}]. *)
Inductive loan_result : Type :=
| LoanOk (prestito_id : string) (data_scadenza : Z)
| LoanFail (error : error_text).

Definition success (r : loan_result) : bool :=
  match r with LoanOk _ _ => true | LoanFail _ => false end.

(** [not libro or not libro.get('disponibile')
     or libro.get('numero_copie', 0) <= 0]. *)
Definition libro_non_disponibile (libro : option doc) : outcome bool :=
  match libro with
  | None => Ret true
  | Some l =>
      if negb (dict_truthy l) then Ret true
      else if negb (get_truthy l "disponibile") then Ret true
      else py_le (default (VInt 0) (l !! "numero_copie")) 0
  end.

(** [not utente or not utente.get('attivo')]. *)
Definition utente_non_valido (utente : option doc) : bool :=
  match utente with
  | None => true
  | Some u => negb (dict_truthy u) || negb (get_truthy u "attivo")
  end.

(** The dict literal [prestito] of the method. *)
Definition prestito_doc (uid lid : oid) (data_prestito data_scadenza created_at : Z)
    : doc :=
  <["utente_id" := VOid uid]> (<["libro_id" := VOid lid]> (
  <["data_prestito" := VDate data_prestito]> (
  <["data_scadenza" := VDate data_scadenza]> (
  <["stato" := VStr "attivo"]> (
  <["created_at" := VDate created_at]> ∅))))).

(** The update document of the method, for the availability it computed. *)
Definition aggiorna_libro (disponibile : bool) : update :=
  mkUpdate [("numero_copie", -1)] [("disponibile", VBool disponibile)].

(** The filter [{'_id': o}]. *)
Definition by_id (o : oid) : filter_doc := {["_id" := CEq (VOid o)]}.

Definition crea_prestito_body (utente_id libro_id : string) (giorni : Z)
    : M loan_result :=
  lid ← new_ObjectId libro_id;
  libro ← find_one Libri (by_id lid);
  non_disponibile ← lift (libro_non_disponibile libro);
  if non_disponibile : bool then mret (LoanFail (Literal "Libro non disponibile"))
  else
    uid ← new_ObjectId utente_id;
    utente ← find_one Utenti (by_id uid);
    if utente_non_valido utente then mret (LoanFail (Literal "Utente non valido"))
    else
      uid ← new_ObjectId utente_id;
      lid ← new_ObjectId libro_id;
      data_prestito ← datetime_now;
      t ← datetime_now;
      delta ← lift (timedelta_days giorni);
      data_scadenza ← lift (datetime_add t delta);
      created_at ← datetime_now;
      let prestito := prestito_doc uid lid data_prestito data_scadenza created_at in
      inserted_id ← insert_one Prestiti prestito;
      lid ← new_ObjectId libro_id;
      copie ← lift (match libro with
                    | Some l => getitem l "numero_copie"
                    | None => Raise TypeError
                    end);
      disponibile ← lift (py_gt copie 1);
      _ ← update_one Libri (by_id lid) (aggiorna_libro disponibile);
      mret (LoanOk inserted_id data_scadenza).

Definition crea_prestito (utente_id libro_id : string) (giorni : Z)
    : M loan_result :=
  try_except (crea_prestito_body utente_id libro_id giorni)
    (λ e, _ ← logger_error "Errore creazione prestito" e;
          mret (LoanFail (StrOf e))).

(** The default of the [giorni] parameter. *)
Definition giorni_default : Z := 30.

(** ** [BibliotecaAPI.statistiche] *)

(** [$group] by [libro_id] with a count; a missing key groups under null.
    Groups are kept in order of first occurrence. *)
Fixpoint group_add (k : value) (gs : list (value * nat)) : list (value * nat) :=
  match gs with
  | [] => [(k, 1%nat)]
  | (k', n) :: r =>
      if bool_decide (k = k') then (k', S n) :: r else (k', n) :: group_add k r
  end.

Definition group_by_libro (l : list doc) : list (value * nat) :=
  foldl (λ gs d, group_add (default VNone (d !! "libro_id")) gs) [] l.

(** [$sort] by count, descending.  The store leaves the order of equal
    counts open; here they keep their group order: a group goes in front of
    the groups after it that have no more loans than it has. *)
Fixpoint sort_insert (g : value * nat) (gs : list (value * nat))
    : list (value * nat) :=
  match gs with
  | [] => [g]
  | h :: r => if (g.2 <? h.2)%nat then h :: sort_insert g r else g :: h :: r
  end.

Definition sort_by_count (gs : list (value * nat)) : list (value * nat) :=
  foldr sort_insert [] gs.

(** The values of the statistics dict: a count, or the ranking rows
    [{'_id': .., 'count': .., 'libro': [..]}]. *)
Inductive stat : Type :=
| SCount (n : nat)
| STop (rows : list (value * nat * list doc)).

Definition aggregate_piu_prestati : M (list (value * nat * list doc)) :=
  store_read (λ w,
    List.map
      (λ g : value * nat, (g.1, g.2, lookup_stage (libri (db w)) "_id" (Some g.1)))
      (take 5 (sort_by_count (group_by_libro (prestiti (db w)))))).

Definition statistiche_body : M (gmap string stat) :=
  totale_libri ← count_documents Libri ∅;
  libri_disponibili ← count_documents Libri {["disponibile" := CEq (VBool true)]};
  prestiti_attivi ← count_documents Prestiti {["stato" := CEq (VStr "attivo")]};
  utenti_registrati ← count_documents Utenti {["attivo" := CEq (VBool true)]};
  now ← datetime_now;
  prestiti_scaduti ←
    count_documents Prestiti
      (<["stato" := CEq (VStr "attivo")]> {["data_scadenza" := CLt (VDate now)]});
  let stats : gmap string stat :=
    <["totale_libri" := SCount totale_libri]> (
    <["libri_disponibili" := SCount libri_disponibili]> (
    <["prestiti_attivi" := SCount prestiti_attivi]> (
    <["utenti_registrati" := SCount utenti_registrati]> (
    <["prestiti_scaduti" := SCount prestiti_scaduti]> ∅)))) in
  piu_prestati ← aggregate_piu_prestati;
  mret (<["libri_piu_prestati" := STop piu_prestati]> stats).

Definition statistiche : M (gmap string stat) :=
  try_except statistiche_body
    (λ e, _ ← logger_error "Errore statistiche" e; mret ∅).

(** ** Notions the properties are stated with *)

(** The document [find_one({'_id': o})] yields on collection [c]. *)
Definition trova (c : coll) (o : oid) (w : World) : option doc :=
  List.find (matches (text_search w) (by_id o)) (coll_get c (db w)).

(** The document the category lookup [find_one({'nome': c})] yields. *)
Definition trova_categoria (c : string) (w : World) : option doc :=
  List.find (matches (text_search w) {["nome" := CEq (VStr c)]})
    (categorie (db w)).

(** The database once the loan document has been appended. *)
Definition db_con_prestito (loan : doc) (d : DB) : DB :=
  coll_set Prestiti (prestiti d ++ [loan]) d.

(** The Loan document a call made in world [w] inserts: the [prestito]
    dict with the id the driver assigns and the three clock readings, as
    the store holds it. *)
Definition prestito_inserito (w : World) (uid lid : oid) (giorni : Z) : doc :=
  <["_id" := VOid (idgen w (nids w))]>
    (bson_doc
       (prestito_doc uid lid (clock w (ticks w))
          (clock w (S (ticks w)) + giorni * us_per_day)
          (clock w (S (S (ticks w)))))).

(** The parts of the world no method touches. *)
Definition same_env (w w' : World) : Prop :=
  clock w' = clock w ∧ idgen w' = idgen w ∧ fault w' = fault w ∧
  text_search w' = text_search w.

(** The Book invariant [available == (copy_count > 0)]. *)
Definition book_inv (d : doc) : bool :=
  match d !! "numero_copie", d !! "disponibile" with
  | Some (VInt c), Some (VBool a) => Bool.eqb a (0 <? c)
  | _, _ => false
  end.

(** A call that may leave [giorni] to its default. *)
Definition crea_prestito_call (utente_id libro_id : string) (giorni : option Z)
    : M loan_result :=
  crea_prestito utente_id libro_id (default giorni_default giorni).

(** Sequential calls against one book, one per (member, period) request. *)
Fixpoint crea_prestiti (libro_id : string) (reqs : list (string * option Z))
    : M (list loan_result) :=
  match reqs with
  | [] => mret []
  | (utente_id, giorni) :: rest =>
      r ← crea_prestito_call utente_id libro_id giorni;
      rs ← crea_prestiti libro_id rest;
      mret (r :: rs)
  end.


(** The field [k] of [d], when present, is not an array. *)
Definition scalar_field (k : string) (d : doc) : bool :=
  match d !! k with Some (VList _) => false | _ => true end.

(** The store round-trips a search performs: the category lookup, when a
    category is given, and the aggregation. *)
Definition cerca_round_trips (categoria : option string) : nat :=
  if str_truthy categoria then 2%nat else 1%nat.

(** ** A sample library

    A small store in the shape [load_sample_data] creates: one category, one
    author, the books "1984" (three copies) and "L'Amica Geniale" (one copy,
    flagged unavailable), an active and an inactive member, no loans. *)
Module Sample.

Definition hex_digit (n : N) : ascii :=
  match String.get (N.to_nat n) "0123456789abcdef" with
  | Some c => c
  | None => "0"%char
  end.

Fixpoint hex_digits (k : nat) (n : N) (acc : string) : string :=
  match k with
  | O => acc
  | S k' => hex_digits k' (n / 16)%N (String (hex_digit (n mod 16)%N) acc)
  end.

(** The 24-digit id numbered [n]. *)
Definition hex24 (n : N) : oid := hex_digits 24 n EmptyString.

Definition cat_id : oid := hex24 0xc1.
Definition aut_id : oid := hex24 0xa1.
Definition libro_1984 : oid := hex24 0xb1.
Definition libro_amica : oid := hex24 0xb2.
Definition utente_attivo : oid := hex24 0xe1.
Definition utente_sospeso : oid := hex24 0xe2.
(** Well-formed ids that name nothing in the store. *)
Definition libro_assente : oid := hex24 0xb9.
Definition utente_assente : oid := hex24 0xe9.

Definition fantascienza : doc :=
  <["_id" := VOid cat_id]> (<["nome" := VStr "Fantascienza"]> ∅).
Definition orwell : doc :=
  <["_id" := VOid aut_id]> (<["nome" := VStr "George"]> (
  <["cognome" := VStr "Orwell"]> ∅)).
Definition book_1984 : doc :=
  <["_id" := VOid libro_1984]> (<["titolo" := VStr "1984"]> (
  <["isbn" := VStr "9780451524935"]> (<["anno_pubblicazione" := VInt 1949]> (
  <["categoria_id" := VOid cat_id]> (<["autore_ids" := VList [VOid aut_id]]> (
  <["numero_copie" := VInt 3]> (<["disponibile" := VBool true]> ∅))))))).
Definition book_amica : doc :=
  <["_id" := VOid libro_amica]> (<["titolo" := VStr "L'Amica Geniale"]> (
  <["isbn" := VStr "9788866345678"]> (<["anno_pubblicazione" := VInt 2011]> (
  <["numero_copie" := VInt 1]> (<["disponibile" := VBool false]> ∅))))).
Definition member_attivo : doc :=
  <["_id" := VOid utente_attivo]> (<["attivo" := VBool true]> ∅).
Definition member_sospeso : doc :=
  <["_id" := VOid utente_sospeso]> (<["attivo" := VBool false]> ∅).

Definition store : DB :=
  mkDB [orwell] [fantascienza] [book_1984; book_amica]
       [member_attivo; member_sospeso] [].

(** 2024-01-01T00:00:00 in microseconds from [datetime.min]. *)
Definition t0 : Z := 738886 * us_per_day.

(** The clock advances a millisecond per reading, generated ids count up
    from [0xf000], no round-trip fails, and the text index matches every
    title. *)
Definition world : World :=
  mkWorld store (λ n, t0 + 1000 * Z.of_nat n) 0
          (λ n, hex24 (0xf000 + N.of_nat n)) 0
          (λ _, false) 0 (λ _ _, true) [] [].

(** The same world with the store round-trip number [n] failing. *)
Definition world_failing (n : nat) : World :=
  mkWorld store (clock world) 0 (idgen world) 0
          (λ k, Nat.eqb k n) 0 (λ _ _, true) [] [].

(** Three loan requests by the active member: default period, two
    weeks, default period. *)
Definition tre_richieste : list (string * option Z) :=
  [(utente_attivo, None); (utente_attivo, Some 14); (utente_attivo, None)].

(** A store whose only book lacks the [numero_copie] field. *)
Definition libro_senza_copie : oid := hex24 0xb7.
Definition book_senza_copie : doc :=
  <["_id" := VOid libro_senza_copie]> (<["titolo" := VStr "Senza copie"]> (
  <["disponibile" := VBool true]> ∅)).
Definition world_senza_copie : World :=
  mkWorld (mkDB [] [] [book_senza_copie] [member_attivo] [])
          (clock world) 0 (idgen world) 0 (λ _, false) 0 (λ _ _, true) [] [].

(** The statistics scenario: five books, three of them available; two
    active loans, one of them past due at [t0]; one returned loan. *)
Definition libro_n (n : N) (copie : Z) (disponibile : bool) : doc :=
  <["_id" := VOid (hex24 (0xb0 + n))]> (<["numero_copie" := VInt copie]> (
  <["disponibile" := VBool disponibile]> ∅)).
Definition prestito_n (n : N) (stato : string) (scadenza : Z) : doc :=
  <["_id" := VOid (hex24 (0xd0 + n))]> (<["libro_id" := VOid (hex24 0xb1)]> (
  <["utente_id" := VOid utente_attivo]> (<["stato" := VStr stato]> (
  <["data_scadenza" := VDate scadenza]> ∅)))).

Definition store_stats : DB :=
  mkDB [] []
       [libro_n 1 2 true; libro_n 2 1 true; libro_n 3 0 false;
        libro_n 4 4 true; libro_n 5 0 false]
       [member_attivo; member_sospeso]
       [prestito_n 1 "attivo" (t0 - us_per_day);
        prestito_n 2 "attivo" (t0 + 7 * us_per_day);
        prestito_n 3 "restituito" (t0 - 3 * us_per_day)].

Definition world_stats : World :=
  mkWorld store_stats (clock world) 0 (idgen world) 0
          (λ _, false) 0 (λ _ _, true) [] [].

End Sample.


(** ** [BibliotecaSetup.connect_database] and the data of [generate_api_data] *)

(** The bytes of a string literal of the source that is not plain ASCII. *)
Definition bytes (l : list nat) : string :=
  string_of_list_ascii (List.map ascii_of_nat l).

(** The marks the source puts in its messages, byte for byte. *)
Definition segno_ok : string :=
  bytes [226; 128; 154; 195; 186; 195; 150]%nat.
Definition segno_errore : string :=
  bytes [226; 128; 154; 195; 185; 195; 165]%nat.
Definition segno_libro : string :=
  bytes [239; 163; 191; 195; 188; 195; 172; 195; 182]%nat.
Definition segno_statistiche : string :=
  bytes [239; 163; 191; 195; 188; 195; 172; 195; 164]%nat.

(** [connect_database]: the client is created and the server pinged; a
    failure of the ping is logged and answered with [False].  The [info]
    record of a successful connection is not kept: [log] holds the error
    records only. *)
Definition connect_database : M bool :=
  try_except
    (_ ← store_read (λ _, tt); mret true)
    (λ e, _ ← logger_error (segno_errore +:+ " Errore connessione MongoDB") e;
          mret false).

Section convert_objectid.
(** [datetime.isoformat()], a function of the Python library. *)
Variable isoformat : Z → string.

(** The local function [convert_objectid] of [generate_api_data], on a
    field value: an ObjectId becomes its string, a list is converted
    element by element, a datetime becomes its ISO text, anything else is
    returned as it is. *)
Fixpoint convert_objectid (v : value) : value :=
  match v with
  | VOid o => VStr o
  | VList l => VList (List.map convert_objectid l)
  | VDate t => VStr (isoformat t)
  | _ => v
  end.

(** [convert_objectid] on a document: [{k: convert_objectid(v) ...}]. *)
Definition convert_doc (d : doc) : doc := convert_objectid <$> d.

(** [convert_objectid] on the [sample_data] dict of document lists. *)
Definition convert_sample (s : gmap string (list doc)) : gmap string (list doc) :=
  List.map convert_doc <$> s.

(** [list(coll.find().limit(n))]. *)
Definition find_limit (c : coll) (n : nat) : M (list doc) :=
  store_read (λ w, take n (coll_get c (db w))).

(** The [sample_data] dict [generate_api_data] builds and converts, as it
    stands when it is handed to [json.dump]. *)
Definition sample_data : M (gmap string (list doc)) :=
  a ← find_limit Autori 5;
  c ← find_limit Categorie 5;
  l ← find_limit Libri 5;
  u ← find_limit Utenti 3;
  p ← find_limit Prestiti 3;
  mret (convert_sample
          (<["autori" := a]> (<["categorie" := c]> (<["libri" := l]> (
           <["utenti" := u]> (<["prestiti" := p]> ∅)))))).

End convert_objectid.

(** A value with no ObjectId and no datetime at any depth. *)
Fixpoint json_clean (v : value) : bool :=
  match v with
  | VOid _ | VDate _ => false
  | VList l => forallb json_clean l
  | _ => true
  end.

(** ** The commands [cerca] and [stats] *)

Section commands.
(** Renderings of the Python library that are taken as given: [str] of a
    datetime, [repr] of a list, [', '.join(x)] for an [x] that is not a
    list, [repr] of the ranking rows. *)
Variable str_datetime : Z → string.
Variable repr_list : list value → string.
Variable join_non_list : value → outcome string.
Variable repr_righe : list (value * nat * list doc) → string.

(** [str(v)], as an f-string renders a field value. *)
Definition py_str (v : value) : string :=
  match v with
  | VNone => "None"
  | VBool true => "True"
  | VBool false => "False"
  | VInt n => pretty n
  | VStr s => s
  | VOid o => o
  | VDate t => str_datetime t
  | VList l => repr_list l
  end.

(** [sep.join(l)] for a list of strings. *)
Fixpoint join_strings (sep : string) (l : list string) : string :=
  match l with
  | [] => EmptyString
  | [s] => s
  | s :: r => s +:+ sep +:+ join_strings sep r
  end.

(** The elements of a list when all of them are strings. *)
Fixpoint all_strings (l : list value) : option (list string) :=
  match l with
  | [] => Some []
  | VStr s :: r =>
      match all_strings r with Some ss => Some (s :: ss) | None => None end
  | _ :: _ => None
  end.

(** [', '.join(libro.get('autori', []))]. *)
Definition join_autori (libro : doc) : outcome string :=
  match libro !! "autori" with
  | None => Ret EmptyString
  | Some (VList l) =>
      match all_strings l with
      | Some ss => Ret (join_strings ", " ss)
      | None => Raise TypeError
      end
  | Some v => join_non_list v
  end.

(** The four [print] calls for one result of the search; an exception can
    only come from the first, before anything of this book is printed. *)
Definition stampa_libro (libro : doc) : outcome (list string) :=
  match getitem libro "titolo" with
  | Raise e => Raise e
  | Ret titolo =>
      match join_autori libro with
      | Raise e => Raise e
      | Ret autori =>
          Ret [segno_libro +:+ " " +:+ py_str titolo +:+ " - " +:+ autori;
               "   Categoria: " +:+
                 match libro !! "categoria" with
                 | Some v => py_str v
                 | None => "N/A"
                 end;
               "   Disponibile: " +:+
                 (if get_truthy libro "disponibile" then segno_ok
                  else segno_errore);
               EmptyString]
      end
  end.

(** The loop over the results: the lines printed, and the exception that
    ended the loop, if one did. *)
Fixpoint stampa_libri (risultati : list doc) : list string * option exn :=
  match risultati with
  | [] => ([], None)
  | libro :: rest =>
      match stampa_libro libro with
      | Raise e => ([], Some e)
      | Ret ls => let '(more, e) := stampa_libri rest in ((ls ++ more)%list, e)
      end
  end.

(** The command [cerca]: [--disponibile] is a flag, so the function gets
    [True] or [False], never [None]. *)
Definition cerca_cmd (query categoria : option string) (disponibile : bool)
    : M (list string * option exn) :=
  connected ← connect_database;
  if negb connected then mret ([], None)
  else
    risultati ← cerca_libri query categoria None (Some disponibile);
    match risultati with
    | [] => mret (["Nessun libro trovato"], None)
    | _ :: _ => mret (stampa_libri risultati)
    end.

(** [f"{statistiche.get(k, 0)}"]. *)
Definition cifra (statistiche : gmap string stat) (k : string) : string :=
  match statistiche !! k with
  | Some (SCount n) => pretty n
  | Some (STop rows) => repr_righe rows
  | None => "0"
  end.

(** ["=" * n]. *)
Fixpoint ripeti (s : string) (n : nat) : string :=
  match n with O => EmptyString | S k => s +:+ ripeti s k end.

(** The command [stats]: the lines it prints. *)
Definition stats_cmd : M (list string) :=
  connected ← connect_database;
  if negb connected then mret []
  else
    s ← statistiche;
    mret [segno_statistiche +:+ " STATISTICHE BIBLIOTECA";
          ripeti "=" 30;
          "Totale libri: " +:+ cifra s "totale_libri";
          "Libri disponibili: " +:+ cifra s "libri_disponibili";
          "Prestiti attivi: " +:+ cifra s "prestiti_attivi";
          "Utenti registrati: " +:+ cifra s "utenti_registrati";
          "Prestiti scaduti: " +:+ cifra s "prestiti_scaduti"].

End commands.

(** ** Further notions the properties are stated with *)

(** The grouping key of a loan in the ranking: its [libro_id], null when
    the field is missing. *)
Definition chiave_libro (d : doc) : value := default VNone (d !! "libro_id").

(** The number of loans grouped under key [k]. *)
Definition prestiti_di (k : value) (l : list doc) : nat :=
  List.length (List.filter (λ d, bool_decide (chiave_libro d = k)) l).

(** The Book document a successful loan leaves, for the count [c] it was
    fetched with. *)
Definition libro_dopo (libro : doc) (c : Z) : doc :=
  <["disponibile" := VBool (0 <? c - 1)]> (<["numero_copie" := VInt (c - 1)]> libro).

(** The [match_conditions] of a search, for the category id its lookup
    settled on (none when no category filter is put). *)
Definition condizioni (query : option string) (cid : option value)
    (disponibile : option bool) : filter_doc :=
  let mc : filter_doc :=
    match query with
    | Some q => if str_truthy query then <["$text" := CText q]> ∅ else ∅
    | None => ∅
    end in
  let mc := match cid with Some v => <["categoria_id" := CEq v]> mc | None => mc end in
  match disponibile with
  | Some b => <["disponibile" := CEq (VBool b)]> mc
  | None => mc
  end.

(** What the search pipeline yields in world [w] for given conditions. *)
Definition risultato (w : World) (mc : filter_doc) : list doc :=
  List.map
    (λ b, project_libro b
            (lookup_stage (autori (db w)) "_id" (b !! "autore_ids"))
            (lookup_stage (categorie (db w)) "_id" (b !! "categoria_id")))
    (List.filter (matches (text_search w) mc) (libri (db w))).

(** The category id a search filters on, as its lookup in world [w]
    settles it; [Raise] when the category document has no [_id]. *)
Definition categoria_cid (categoria : option string) (w : World)
    : outcome (option value) :=
  match categoria with
  | Some c =>
      if str_truthy categoria then
        match trova_categoria c w with
        | Some cat =>
            if dict_truthy cat then
              match getitem cat "_id" with
              | Ret v => Ret (Some v)
              | Raise e => Raise e
              end
            else Ret None
        | None => Ret None
        end
      else Ret None
  | None => Ret None
  end.

(** What [count_documents(f)] on collection [c] answers in world [w]. *)
Definition conta (c : coll) (f : filter_doc) (w : World) : nat :=
  List.length (List.filter (matches (text_search w) f) (coll_get c (db w))).

(** The rows of the ranking pipeline on a database. *)
Definition classifica (d : DB) : list (value * nat * list doc) :=
  List.map
    (λ g : value * nat, (g.1, g.2, lookup_stage (libri d) "_id" (Some g.1)))
    (take 5 (sort_by_count (group_by_libro (prestiti d)))).

(** The total count the groups of [gs] hold under key [k]. *)
Fixpoint peso (k : value) (gs : list (value * nat)) : nat :=
  match gs with
  | [] => 0
  | g :: r => ((if bool_decide (g.1 = k) then g.2 else 0) + peso k r)%nat
  end.

(** Rows in non-increasing order of count. *)
Definition per_conteggio (a b : value * nat) : Prop := (b.2 ≤ a.2)%nat.

(** ** Further sample data *)
Module Esempi.

(** A book whose availability flag is the number 1 rather than a boolean:
    truthy for the check of [crea_prestito], yet not the flag the
    invariant asks for. *)
Definition libro_flag : oid := Sample.hex24 0xb8.
Definition book_flag : doc :=
  <["_id" := VOid libro_flag]> (<["titolo" := VStr "Il barone rampante"]> (
  <["numero_copie" := VInt 2]> (<["disponibile" := VInt 1]> ∅))).
Definition world_flag : World :=
  mkWorld (mkDB [] [] [book_flag] [Sample.member_attivo] [])
          (clock Sample.world) 0 (idgen Sample.world) 0 (λ _, false) 0
          (λ _ _, true) [] [].

(** The sample library under a clock that reads microseconds: one more at
    every reading, the first a microsecond past the millisecond. *)
Definition world_micro : World :=
  mkWorld Sample.store (λ n, Sample.t0 + Z.of_nat n + 1) 0
          (idgen Sample.world) 0 (λ _, false) 0 (λ _ _, true) [] [].

(** A library whose books are all available. *)
Definition world_disponibili : World :=
  mkWorld (mkDB [Sample.orwell] [Sample.fantascienza]
                [Sample.book_1984; Sample.libro_n 2 1 true] [] [])
          (clock Sample.world) 0 (idgen Sample.world) 0 (λ _, false) 0
          (λ _ _, true) [] [].

(** Stand-ins for the renderings the commands take as given. *)
Definition str_datetime (t : Z) : string := "<datetime>".
Definition repr_list (l : list value) : string := "<list>".
Definition join_non_list (v : value) : outcome string := Raise TypeError.
Definition repr_righe (r : list (value * nat * list doc)) : string := "<rows>".
Definition isoformat (t : Z) : string := "<iso>".

(** A document holding every kind of value. *)
Definition documento_misto : doc :=
  <["_id" := VOid libro_flag]> (<["autore_ids" := VList [VOid Sample.aut_id]]> (
  <["created_at" := VDate Sample.t0]> (<["titolo" := VStr "1984"]> (
  <["numero_copie" := VInt 3]> ∅)))).

End Esempi.

(** * Properties *)

(** ** Every way a call of [crea_prestito] can end

    The method never raises.  It ends rejected (nothing written), partial
    (the loan inserted, the book not updated) or created (both written). *)

Section crea_prestito_elim.
Variables (utente_id libro_id : string) (giorni : Z) (w : World).
Variable P : outcome loan_result * World → Prop.

Let due := clock w (S (ticks w)) + giorni * us_per_day.
Let loan uid lid := prestito_inserito w uid lid giorni.

Hypothesis rejected : ∀ e w',
  same_env w w' → db w' = db w → hist w' = hist w →
  P (Ret (LoanFail e), w').

Hypothesis partial : ∀ e w' lid uid libro utente,
  same_env w w' →
  ObjectId libro_id = Some lid → ObjectId utente_id = Some uid →
  trova Libri lid w = Some libro →
  libro_non_disponibile (Some libro) = Ret false →
  trova Utenti uid w = Some utente →
  utente_non_valido (Some utente) = false →
  db w' = db_con_prestito (loan uid lid) (db w) →
  hist w' = db w' :: hist w →
  P (Ret (LoanFail e), w').

Hypothesis created : ∀ w' lid uid libro utente copie dis libri',
  same_env w w' →
  ObjectId libro_id = Some lid → ObjectId utente_id = Some uid →
  trova Libri lid w = Some libro →
  libro_non_disponibile (Some libro) = Ret false →
  trova Utenti uid w = Some utente →
  utente_non_valido (Some utente) = false →
  getitem libro "numero_copie" = Ret copie →
  py_gt copie 1 = Ret dis →
  update_first (matches (text_search w) (by_id lid)) (aggiorna_libro dis)
    (libri (db w)) = Ret libri' →
  db w' = coll_set Libri libri' (db_con_prestito (loan uid lid) (db w)) →
  hist w' = db w' :: db_con_prestito (loan uid lid) (db w) :: hist w →
  ticks w' = (3 + ticks w)%nat → nids w' = S (nids w) →
  calls w' = (4 + calls w)%nat → log w' = log w →
  P (Ret (LoanOk (idgen w (nids w)) due), w').

Lemma crea_prestito_elim : P (crea_prestito utente_id libro_id giorni w).
Proof using All.
  unfold crea_prestito, try_except, crea_prestito_body, new_ObjectId.
  unfold mbind, M_bind, mret, M_ret, lift, raise, find_one, insert_one,
    update_one, store_read, store_write, datetime_now, logger_error.
  destruct (ObjectId libro_id) as [lid|] eqn:Hlid; cbn.
  2: { apply rejected; cbn; repeat split; reflexivity. }
  destruct (fault w (calls w)) eqn:F0; cbn.
  { apply rejected; cbn; repeat split; reflexivity. }
  destruct (find _ (libri (db w))) as [libro|] eqn:Hlibro; cbn.
  2: { apply rejected; cbn; repeat split; reflexivity. }
  destruct (libro_non_disponibile (Some libro)) as [[]|e0] eqn:Hnd;
    cbn in Hnd; rewrite Hnd; cbn.
  1,3: apply rejected; cbn; repeat split; reflexivity.
  destruct (ObjectId utente_id) as [uid|] eqn:Huid; cbn.
  2: { apply rejected; cbn; repeat split; reflexivity. }
  destruct (fault w (S (calls w))) eqn:F1; cbn.
  { apply rejected; cbn; repeat split; reflexivity. }
  destruct (find _ (utenti (db w))) as [utente|] eqn:Hutente; cbn.
  2: { apply rejected; cbn; repeat split; reflexivity. }
  destruct (utente_non_valido (Some utente)) eqn:Hnv; cbn in Hnv; rewrite Hnv; cbn.
  { apply rejected; cbn; repeat split; reflexivity. }
  destruct (timedelta_days giorni) as [delta|e1] eqn:Htd; cbn.
  2: { apply rejected; cbn; repeat split; reflexivity. }
  assert (delta = giorni * us_per_day) as ->.
  { unfold timedelta_days in Htd. destruct (_ <=? _); congruence. }
  destruct (datetime_add _ _) as [ds|e2] eqn:Hda; cbn.
  2: { apply rejected; cbn; repeat split; reflexivity. }
  assert (ds = due) as ->.
  { unfold datetime_add in Hda. destruct (_ && _); [|discriminate].
    injection Hda as <-. reflexivity. }
  destruct (fault w (S (S (calls w)))) eqn:F2; cbn.
  { apply rejected; cbn; repeat split; reflexivity. }
  destruct (existsb _ (prestiti (db w))) eqn:Hdup; cbn.
  { apply rejected; cbn; repeat split; reflexivity. }
  destruct (getitem libro "numero_copie") as [copie|e3] eqn:Hcopie; cbn.
  2: { eapply partial; cbn; try reflexivity; try eassumption.
       repeat split; reflexivity. }
  destruct (py_gt copie 1) as [dis|e4] eqn:Hdis; cbn.
  2: { eapply partial; cbn; try reflexivity; try eassumption.
       repeat split; reflexivity. }
  destruct (fault w (S (S (S (calls w))))) eqn:F3; cbn.
  { eapply partial; cbn; try reflexivity; try eassumption.
    repeat split; reflexivity. }
  destruct (update_first _ _ (libri (db w))) as [libri'|e5] eqn:Hupd; cbn.
  2: { eapply partial; cbn; try reflexivity; try eassumption.
       repeat split; reflexivity. }
  eapply created; cbn; try reflexivity; try eassumption.
  repeat split; reflexivity.
Qed.
End crea_prestito_elim.

(** ** Filters *)

Lemma matches_singleton ts k c d :
  matches ts {[k := c]} d = clause_holds ts d k c.
Proof.
  unfold matches. destruct (clause_holds ts d k c) eqn:E.
  - apply bool_decide_eq_true. apply map_Forall_singleton. exact E.
  - apply bool_decide_eq_false. intros H.
    apply map_Forall_singleton in H. congruence.
Qed.

Lemma matches_empty ts d : matches ts ∅ d = true.
Proof. apply bool_decide_eq_true. apply map_Forall_empty. Qed.

(** ** The update of the book *)

Lemma apply_aggiorna_libro dis d :
  apply_update (aggiorna_libro dis) d =
  match d !! "numero_copie" with
  | None => Ret (<["disponibile" := VBool dis]> (<["numero_copie" := VInt (-1)]> d))
  | Some (VInt n) =>
      Ret (<["disponibile" := VBool dis]> (<["numero_copie" := VInt (n + -1)]> d))
  | Some _ => Raise (WriteError "numero_copie")
  end.
Proof.
  unfold apply_update, aggiorna_libro. cbn.
  destruct (d !! "numero_copie") as [[]|]; reflexivity.
Qed.

Lemma update_first_spec p u l d l' :
  List.find p l = Some d → update_first p u l = Ret l' →
  ∃ i d', l !! i = Some d ∧ apply_update u d = Ret d' ∧ l' = <[i := d']> l ∧
          (p d' = true → List.find p l' = Some d').
Proof.
  revert l'. induction l as [|x l IH]; intros l' Hf Hu; [discriminate|].
  cbn in Hf, Hu. destruct (p x) eqn:Hp.
  - injection Hf as ->. destruct (apply_update u d) as [d'|] eqn:Ha; [|discriminate].
    injection Hu as <-. exists 0%nat, d'. repeat split; try reflexivity.
    intros Hd'. cbn. rewrite Hd'. reflexivity.
  - destruct (update_first p u l) as [r'|] eqn:Hr; [|discriminate].
    injection Hu as <-. destruct (IH r' Hf eq_refl) as (i & d' & Hi & Ha & -> & Hfind).
    exists (S i), d'. repeat split; try assumption; try reflexivity.
    intros Hd'. cbn. rewrite Hp. apply Hfind, Hd'.
Qed.

(** A book that passes the availability check and takes the decrement holds
    an integer count of at least one. *)
Lemma libro_disponibile_copie libro copie :
  libro_non_disponibile (Some libro) = Ret false →
  getitem libro "numero_copie" = Ret copie →
  (∃ c, copie = VInt c ∧ 0 < c) ∨ copie = VBool true.
Proof.
  unfold libro_non_disponibile, getitem.
  destruct (negb (dict_truthy libro)); [discriminate|].
  destruct (negb (get_truthy libro "disponibile")); [discriminate|].
  destruct (libro !! "numero_copie") as [v|]; [|discriminate].
  intros H [= <-]. cbn in H. unfold py_le in H.
  destruct v as [|[]|n| | | |]; cbn in H; try discriminate.
  - right. reflexivity.
  - left. exists n. split; [reflexivity|].
    injection H as H. apply Z.leb_gt in H. exact H.
Qed.

(** The filter on [_id] looks at that field only. *)
Lemma matches_by_id_ext ts o (d d' : doc) :
  d' !! "_id" = d !! "_id" → matches ts (by_id o) d' = matches ts (by_id o) d.
Proof.
  intros E. unfold by_id. rewrite !matches_singleton. cbn. rewrite E. reflexivity.
Qed.

(** ** The two rejections the method words itself *)

Ltac unfold_api :=
  unfold crea_prestito, crea_prestito_body, new_ObjectId,
    cerca_libri, cerca_libri_body, statistiche, statistiche_body,
    aggregate_cerca, aggregate_piu_prestati, count_documents;
  unfold try_except, mbind, M_bind, mret, M_ret, lift, raise, find_one,
    insert_one, update_one, store_read, store_write, datetime_now,
    logger_error;
  cbv beta.

Lemma crea_prestito_libro_rejected utente_id libro_id giorni w lid :
  ObjectId libro_id = Some lid → fault w (calls w) = false →
  libro_non_disponibile (trova Libri lid w) = Ret true →
  crea_prestito utente_id libro_id giorni w =
  (Ret (LoanFail (Literal "Libro non disponibile")), set_calls (S (calls w)) w).
Proof.
  intros Hl F0 Hnd. unfold trova in Hnd. unfold_api.
  rewrite Hl, F0, Hnd. reflexivity.
Qed.

Lemma crea_prestito_utente_rejected utente_id libro_id giorni w lid uid :
  ObjectId libro_id = Some lid → fault w (calls w) = false →
  libro_non_disponibile (trova Libri lid w) = Ret false →
  ObjectId utente_id = Some uid → fault w (S (calls w)) = false →
  utente_non_valido (trova Utenti uid w) = true →
  crea_prestito utente_id libro_id giorni w =
  (Ret (LoanFail (Literal "Utente non valido")),
   set_calls (S (S (calls w))) w).
Proof.
  intros Hl F0 Hnd Hu F1 Hnv. unfold trova in Hnd, Hnv. unfold_api.
  rewrite Hl, F0, Hnd, Hu.
  cbn [fault calls set_calls db text_search]. rewrite F1, Hnv. reflexivity.
Qed.

(** A document the filter on [_id] selects is not the empty dict. *)
Lemma trova_truthy c o w d : trova c o w = Some d → dict_truthy d = true.
Proof.
  unfold trova. intros H. apply List.find_some in H as [_ H].
  unfold by_id in H. rewrite matches_singleton in H. cbn in H.
  unfold dict_truthy. apply negb_true_iff, bool_decide_eq_false.
  intros ->. rewrite lookup_empty in H. cbn in H. discriminate.
Qed.

(** ** C2: a missing book and an unavailable book *)

(** C2 (counterexample).  In the sample library a loan of a book that does
    not exist and a loan of a book that exists but is flagged unavailable
    end in the very same returned value: the caller cannot tell
    the two failures apart. *)
Lemma C2_same_failure_for_missing_and_unavailable :
  trova Libri Sample.libro_assente Sample.world = None
  ∧ trova Libri Sample.libro_amica Sample.world = Some Sample.book_amica
  ∧ (crea_prestito Sample.utente_attivo Sample.libro_assente 30 Sample.world).1
    = Ret (LoanFail (Literal "Libro non disponibile"))
  ∧ (crea_prestito Sample.utente_attivo Sample.libro_amica 30 Sample.world).1
    = (crea_prestito Sample.utente_attivo Sample.libro_assente 30 Sample.world).1.
Proof. repeat split; compute_done. Qed.

(** C2 (amended).  When the book fetch completes, a book id naming no Book
    document, and an existing Book whose [disponibile] is false or absent or
    whose [numero_copie] is an integer [<= 0], all make [crea_prestito]
    return the one failure ['Libro non disponibile'], with nothing
    written. *)
Theorem C2_missing_or_unavailable_book_one_failure
    utente_id libro_id giorni w lid :
  ObjectId libro_id = Some lid →
  fault w (calls w) = false →
  (trova Libri lid w = None ∨
   ∃ libro, trova Libri lid w = Some libro ∧
     (get_truthy libro "disponibile" = false ∨
      ∃ c, libro !! "numero_copie" = Some (VInt c) ∧ c ≤ 0)) →
  crea_prestito utente_id libro_id giorni w =
  (Ret (LoanFail (Literal "Libro non disponibile")), set_calls (S (calls w)) w).
Proof.
  intros Hl F0 H. apply (crea_prestito_libro_rejected _ _ _ _ lid Hl F0).
  destruct H as [-> | (libro & Hf & H)]; [reflexivity|].
  rewrite Hf. unfold libro_non_disponibile.
  rewrite (trova_truthy _ _ _ _ Hf). cbn.
  destruct (get_truthy libro "disponibile") eqn:Hd; cbn; [|reflexivity].
  destruct H as [H | (c & Hc & Hle)]; [discriminate|].
  rewrite Hc. cbn. unfold py_le. cbn.
  apply Z.leb_le in Hle. rewrite Hle. reflexivity.
Qed.

Lemma C2_missing_or_unavailable_book_one_failure_witness :
  crea_prestito Sample.utente_attivo Sample.libro_amica 30 Sample.world =
  (Ret (LoanFail (Literal "Libro non disponibile")),
   set_calls (S (calls Sample.world)) Sample.world).
Proof.
  apply (C2_missing_or_unavailable_book_one_failure
           Sample.utente_attivo Sample.libro_amica 30 Sample.world
           Sample.libro_amica).
  - compute_done.
  - compute_done.
  - right. exists Sample.book_amica. split; [compute_done|].
    left. compute_done.
Defined.

(** ** C9: a book without the copy-count field *)

(** C9.  A fetched Book document that lacks [numero_copie] has its count
    read as 0; the call returns the unavailable failure and performs no
    write: no Loan is inserted and the persist and decrement steps are not
    reached. *)
Theorem C9_missing_copy_count_is_unavailable
    utente_id libro_id giorni w lid libro :
  ObjectId libro_id = Some lid →
  fault w (calls w) = false →
  trova Libri lid w = Some libro →
  libro !! "numero_copie" = None →
  default (VInt 0) (libro !! "numero_copie") = VInt 0 ∧
  ∃ w', crea_prestito utente_id libro_id giorni w =
          (Ret (LoanFail (Literal "Libro non disponibile")), w') ∧
        db w' = db w ∧ prestiti (db w') = prestiti (db w) ∧
        hist w' = hist w.
Proof.
  intros Hl F0 Hf Hn. split; [rewrite Hn; reflexivity|].
  eexists. split.
  - apply (crea_prestito_libro_rejected _ _ _ _ lid Hl F0).
    rewrite Hf. unfold libro_non_disponibile.
    rewrite (trova_truthy _ _ _ _ Hf). cbn.
    destruct (get_truthy libro "disponibile"); cbn; [|reflexivity].
    rewrite Hn. reflexivity.
  - repeat split.
Qed.

Lemma C9_missing_copy_count_is_unavailable_witness :
  default (VInt 0) (Sample.book_senza_copie !! "numero_copie") = VInt 0 ∧
  ∃ w', crea_prestito Sample.utente_attivo Sample.libro_senza_copie 30
          Sample.world_senza_copie
        = (Ret (LoanFail (Literal "Libro non disponibile")), w') ∧
        db w' = db Sample.world_senza_copie ∧
        prestiti (db w') = prestiti (db Sample.world_senza_copie) ∧
        hist w' = hist Sample.world_senza_copie.
Proof.
  apply (C9_missing_copy_count_is_unavailable
           Sample.utente_attivo Sample.libro_senza_copie 30
           Sample.world_senza_copie Sample.libro_senza_copie
           Sample.book_senza_copie).
  - compute_done.
  - reflexivity.
  - compute_done.
  - compute_done.
Defined.

(** ** C10: malformed ids *)

(** C10.  When [utente_id] or [libro_id] is not a well-formed ObjectId
    string, [crea_prestito] returns a failure value (it does not raise) and
    writes nothing: the database is unchanged and no write was performed. *)
Theorem C10_malformed_id_fails_without_writing utente_id libro_id giorni w :
  ObjectId utente_id = None ∨ ObjectId libro_id = None →
  ∃ e w', crea_prestito utente_id libro_id giorni w = (Ret (LoanFail e), w') ∧
          success (LoanFail e) = false ∧
          db w' = db w ∧ hist w' = hist w.
Proof.
  intros Hbad. apply crea_prestito_elim.
  - intros e w' _ Hdb Hh. exists e, w'. repeat split; assumption.
  - intros e w' lid uid libro utente _ Hl Hu. destruct Hbad; congruence.
  - intros w' lid uid libro utente copie dis libri' _ Hl Hu.
    destruct Hbad; congruence.
Qed.

Lemma C10_malformed_id_fails_without_writing_witness :
  ∃ e w', crea_prestito "not-an-id" Sample.libro_1984 30 Sample.world
          = (Ret (LoanFail e), w') ∧
          success (LoanFail e) = false ∧
          db w' = db Sample.world ∧ hist w' = hist Sample.world.
Proof.
  apply (C10_malformed_id_fails_without_writing
           "not-an-id" Sample.libro_1984 30 Sample.world).
  left. compute_done.
Defined.

(** ** C6: a member id that names no member *)

(** C6 (counterexample).  In the sample library, a loan of the available
    book for a member id that names no member fails with the message
    ['Utente non valido'], the very value a loan of the same book for the
    existing, suspended member returns: no failure says that the member
    was not found. *)
Lemma C6_missing_member_same_failure_as_inactive :
  trova Libri Sample.libro_1984 Sample.world = Some Sample.book_1984
  ∧ libro_non_disponibile (Some Sample.book_1984) = Ret false
  ∧ trova Utenti Sample.utente_assente Sample.world = None
  ∧ trova Utenti Sample.utente_sospeso Sample.world = Some Sample.member_sospeso
  ∧ (crea_prestito Sample.utente_assente Sample.libro_1984 30 Sample.world).1
    = Ret (LoanFail (Literal "Utente non valido"))
  ∧ (crea_prestito Sample.utente_sospeso Sample.libro_1984 30 Sample.world).1
    = (crea_prestito Sample.utente_assente Sample.libro_1984 30 Sample.world).1.
Proof. repeat split; compute_done. Qed.

(** C6 (amended).  For a member id that names no Member document,
    [crea_prestito] returns a failure, inserts no Loan and leaves every
    Book (the whole database) unchanged.  When the ids are well-formed,
    both fetches complete and the book passes its check, the failure is
    the message ['Utente non valido'], and a call for the same book by a
    member who is in the store with a falsy [attivo] ends in the very same
    result: nothing in it tells a missing member from an inactive one. *)
Theorem C6_missing_member_fails_without_writing utente_id libro_id giorni w :
  (∀ uid, ObjectId utente_id = Some uid → trova Utenti uid w = None) →
  ∃ e w', crea_prestito utente_id libro_id giorni w = (Ret (LoanFail e), w') ∧
          db w' = db w ∧ hist w' = hist w ∧
          (∀ lid uid,
              ObjectId libro_id = Some lid → ObjectId utente_id = Some uid →
              fault w (calls w) = false → fault w (S (calls w)) = false →
              libro_non_disponibile (trova Libri lid w) = Ret false →
              e = Literal "Utente non valido" ∧
              ∀ altro aid inattivo,
                ObjectId altro = Some aid →
                trova Utenti aid w = Some inattivo →
                get_truthy inattivo "attivo" = false →
                crea_prestito altro libro_id giorni w
                = crea_prestito utente_id libro_id giorni w).
Proof.
  intros Hno.
  assert (Hmsg : ∀ lid uid,
              ObjectId libro_id = Some lid → ObjectId utente_id = Some uid →
              fault w (calls w) = false → fault w (S (calls w)) = false →
              libro_non_disponibile (trova Libri lid w) = Ret false →
              crea_prestito utente_id libro_id giorni w
              = (Ret (LoanFail (Literal "Utente non valido")),
                 set_calls (S (S (calls w))) w) ∧
              ∀ altro aid inattivo,
                ObjectId altro = Some aid →
                trova Utenti aid w = Some inattivo →
                get_truthy inattivo "attivo" = false →
                crea_prestito altro libro_id giorni w
                = crea_prestito utente_id libro_id giorni w).
  { intros lid uid Hl Hu F0 F1 Hnd.
    assert (Hrun : crea_prestito utente_id libro_id giorni w
                   = (Ret (LoanFail (Literal "Utente non valido")),
                      set_calls (S (S (calls w))) w)).
    { apply (crea_prestito_utente_rejected _ _ _ _ lid uid Hl F0 Hnd Hu F1).
      rewrite (Hno uid Hu). reflexivity. }
    split; [exact Hrun|].
    intros altro aid inattivo Ha Hf Hatt. rewrite Hrun.
    apply (crea_prestito_utente_rejected _ _ _ _ lid aid Hl F0 Hnd Ha F1).
    rewrite Hf. unfold utente_non_valido. rewrite Hatt.
    apply orb_true_r. }
  revert Hmsg. apply crea_prestito_elim.
  - intros e w' _ Hdb Hh Hmsg. exists e, w'.
    split; [reflexivity|]. split; [assumption|]. split; [assumption|].
    intros lid uid Hl Hu F0 F1 Hnd.
    destruct (Hmsg lid uid Hl Hu F0 F1 Hnd) as [Hrun Hsame].
    split; [congruence|exact Hsame].
  - intros e w' lid uid libro utente _ _ Hu _ _ Hf. rewrite (Hno uid Hu) in Hf.
    discriminate.
  - intros w' lid uid libro utente copie dis libri' _ _ Hu _ _ Hf.
    rewrite (Hno uid Hu) in Hf. discriminate.
Qed.

Lemma C6_missing_member_fails_without_writing_witness :
  ∃ e w', crea_prestito Sample.utente_assente Sample.libro_1984 30 Sample.world
          = (Ret (LoanFail e), w') ∧
          db w' = db Sample.world ∧ hist w' = hist Sample.world ∧
          (∀ lid uid,
              ObjectId Sample.libro_1984 = Some lid →
              ObjectId Sample.utente_assente = Some uid →
              fault Sample.world (calls Sample.world) = false →
              fault Sample.world (S (calls Sample.world)) = false →
              libro_non_disponibile (trova Libri lid Sample.world) = Ret false →
              e = Literal "Utente non valido" ∧
              ∀ altro aid inattivo,
                ObjectId altro = Some aid →
                trova Utenti aid Sample.world = Some inattivo →
                get_truthy inattivo "attivo" = false →
                crea_prestito altro Sample.libro_1984 30 Sample.world
                = crea_prestito Sample.utente_assente Sample.libro_1984 30
                    Sample.world).
Proof.
  apply (C6_missing_member_fails_without_writing
           Sample.utente_assente Sample.libro_1984 30 Sample.world).
  intros uid Hu.
  assert (uid = Sample.utente_assente) as ->.
  { vm_compute in Hu. injection Hu as <-. reflexivity. }
  compute_done.
Defined.

(** ** The inserted loan *)

(** The store's cut of a datetime loses less than a millisecond. *)
Lemma millis_bounds t : t - 1000 < millis t ≤ t.
Proof.
  unfold millis. pose proof (Z.div_mod t 1000 ltac:(lia)) as E.
  pose proof (Z.mod_pos_bound t 1000 ltac:(lia)). lia.
Qed.

Lemma prestito_inserito_fields w uid lid giorni :
  let loan := prestito_inserito w uid lid giorni in
  loan !! "libro_id" = Some (VOid lid) ∧
  loan !! "utente_id" = Some (VOid uid) ∧
  loan !! "stato" = Some (VStr "attivo") ∧
  loan !! "data_scadenza"
    = Some (VDate (millis (clock w (S (ticks w)) + giorni * us_per_day))) ∧
  loan !! "_id" = Some (VOid (idgen w (nids w))).
Proof.
  unfold prestito_inserito, bson_doc, prestito_doc. cbn zeta.
  repeat split;
    try (rewrite lookup_insert_ne by discriminate; rewrite lookup_fmap);
    repeat (rewrite lookup_insert_ne by discriminate);
    rewrite lookup_insert_eq; reflexivity.
Qed.

(** ** The created case, book side *)

(** The book document after a successful loan. *)
Lemma libro_aggiornato w lid libro copie dis libri' :
  trova Libri lid w = Some libro →
  libro_non_disponibile (Some libro) = Ret false →
  getitem libro "numero_copie" = Ret copie →
  py_gt copie 1 = Ret dis →
  update_first (matches (text_search w) (by_id lid)) (aggiorna_libro dis)
    (libri (db w)) = Ret libri' →
  ∃ j c,
    libri (db w) !! j = Some libro ∧
    libro !! "numero_copie" = Some (VInt c) ∧ 0 < c ∧
    let libro' := <["disponibile" := VBool (0 <? c - 1)]>
                    (<["numero_copie" := VInt (c - 1)]> libro) in
    libri' = <[j := libro']> (libri (db w)) ∧
    List.find (matches (text_search w) (by_id lid)) libri' = Some libro'.
Proof.
  intros Hf Hnd Hc Hdis Hupd. unfold trova in Hf. cbn in Hf.
  destruct (update_first_spec _ _ _ _ _ Hf Hupd) as (j & d' & Hj & Ha & -> & Hfind).
  rewrite apply_aggiorna_libro in Ha.
  assert (Hlk : libro !! "numero_copie" = Some copie).
  { unfold getitem in Hc. destruct (libro !! "numero_copie"); congruence. }
  rewrite Hlk in Ha.
  destruct (libro_disponibile_copie _ _ Hnd Hc) as [(c & -> & Hpos) | ->];
    [|discriminate].
  injection Ha as <-. cbn in Hdis. injection Hdis as <-.
  exists j, c. split; [assumption|]. split; [assumption|]. split; [assumption|].
  cbn zeta.
  replace (c + -1) with (c - 1) in * by lia.
  replace (1 <? c) with (0 <? c - 1) in *.
  2: { destruct (Z.ltb_spec 0 (c - 1)), (Z.ltb_spec 1 c); try reflexivity; lia. }
  split; [reflexivity|].
  apply Hfind. apply List.find_some in Hf as [_ Hp].
  rewrite <- Hp. apply matches_by_id_ext.
  rewrite !lookup_insert_ne by discriminate. reflexivity.
Qed.

Lemma book_inv_aggiornato (libro : doc) c :
  book_inv (<["disponibile" := VBool (0 <? c - 1)]>
              (<["numero_copie" := VInt (c - 1)]> libro)) = true.
Proof.
  unfold book_inv.
  rewrite lookup_insert_ne by discriminate.
  rewrite !lookup_insert_eq. apply Bool.eqb_reflx.
Qed.

(** ** C3: the availability invariant *)

(** C3.  A Book on which [available == (copy_count > 0)] holds before a
    call of [crea_prestito] still satisfies it afterwards, however the call
    ends; and a successful call replaces the fetched Book, whose count was
    [c > 0], by the same document with count [c - 1] and availability
    [(c - 1) > 0], all other Books staying as they were. *)
Theorem C3_availability_invariant_preserved
    utente_id libro_id giorni w (i : nat) (b : doc) :
  libri (db w) !! i = Some b →
  book_inv b = true →
  ∃ r w' b',
    crea_prestito utente_id libro_id giorni w = (Ret r, w') ∧
    libri (db w') !! i = Some b' ∧ b' !! "_id" = b !! "_id" ∧
    book_inv b' = true ∧
    (success r = true →
     ∃ lid j libro c,
       ObjectId libro_id = Some lid ∧ trova Libri lid w = Some libro ∧
       libri (db w) !! j = Some libro ∧
       libro !! "numero_copie" = Some (VInt c) ∧ 0 < c ∧
       libri (db w') =
         <[j := <["disponibile" := VBool (0 <? c - 1)]>
                  (<["numero_copie" := VInt (c - 1)]> libro)]> (libri (db w))).
Proof.
  intros Hi Hinv. apply crea_prestito_elim.
  - intros e w' _ Hdb _. exists (LoanFail e), w', b. rewrite Hdb.
    repeat split; try assumption. discriminate.
  - intros e w' lid uid libro utente _ _ _ _ _ _ _ Hdb _.
    exists (LoanFail e), w', b. rewrite Hdb.
    repeat split; try assumption. discriminate.
  - intros w' lid uid libro utente copie dis libri' _ Hl _ Hf Hnd _ _ Hc Hdis
      Hupd Hdb _ _ _ _ _.
    destruct (libro_aggiornato _ _ _ _ _ _ Hf Hnd Hc Hdis Hupd)
      as (j & c & Hj & Hcopie & Hpos & Hlibri & _).
    cbn zeta in Hlibri.
    assert (Hl' : libri (db w') = libri') by (rewrite Hdb; reflexivity).
    destruct (decide (i = j)) as [-> | Hne].
    + assert (b = libro) as -> by congruence.
      eexists _, w', _. split; [reflexivity|].
      rewrite Hl', Hlibri.
      split. { apply list_lookup_insert_eq. eapply lookup_lt_Some, Hj. }
      split. { rewrite !lookup_insert_ne by discriminate. reflexivity. }
      split. { apply book_inv_aggiornato. }
      intros _. exists lid, j, libro, c. repeat split; assumption.
    + eexists _, w', b. split; [reflexivity|].
      rewrite Hl', Hlibri.
      split. { rewrite list_lookup_insert_ne by congruence. exact Hi. }
      split; [reflexivity|]. split; [assumption|].
      intros _. exists lid, j, libro, c. repeat split; assumption.
Qed.

Lemma C3_availability_invariant_preserved_witness :
  ∃ r w' b',
    crea_prestito Sample.utente_attivo Sample.libro_1984 30 Sample.world
    = (Ret r, w') ∧
    libri (db w') !! 0%nat = Some b' ∧
    b' !! "_id" = Sample.book_1984 !! "_id" ∧
    book_inv b' = true ∧
    (success r = true →
     ∃ lid j libro c,
       ObjectId Sample.libro_1984 = Some lid ∧
       trova Libri lid Sample.world = Some libro ∧
       libri (db Sample.world) !! j = Some libro ∧
       libro !! "numero_copie" = Some (VInt c) ∧ 0 < c ∧
       libri (db w') =
         <[j := <["disponibile" := VBool (0 <? c - 1)]>
                  (<["numero_copie" := VInt (c - 1)]> libro)]>
           (libri (db Sample.world))).
Proof.
  apply (C3_availability_invariant_preserved
           Sample.utente_attivo Sample.libro_1984 30 Sample.world
           0%nat Sample.book_1984).
  - reflexivity.
  - compute_done.
Defined.

(** ** C5: the order of the two writes *)

(** C5.  The writes a call of [crea_prestito] performs are none, or the
    Loan insert alone, or the Loan insert followed by the Book update.  So
    every database state the call leaves behind, a crash after any of its
    store round-trips included, either has the Books as they were before
    the call or holds the new Loan document of the book. *)
Theorem C5_loan_insert_precedes_book_update utente_id libro_id giorni w :
  ∃ r w' new,
    crea_prestito utente_id libro_id giorni w = (Ret r, w') ∧
    hist w' = (new ++ hist w)%list ∧ db w' = hd (db w) new ∧
    (new = [] ∨
     ∃ lid loan,
       ObjectId libro_id = Some lid ∧
       loan !! "libro_id" = Some (VOid lid) ∧
       loan !! "stato" = Some (VStr "attivo") ∧
       (new = [db_con_prestito loan (db w)] ∨
        ∃ libri', new = [coll_set Libri libri' (db_con_prestito loan (db w));
                         db_con_prestito loan (db w)])) ∧
    Forall (λ s, libri s = libri (db w) ∨
                 ∃ lid loan, ObjectId libro_id = Some lid ∧
                             loan !! "libro_id" = Some (VOid lid) ∧
                             prestiti s = (prestiti (db w) ++ [loan])%list) new.
Proof.
  apply crea_prestito_elim.
  - intros e w' _ Hdb Hh. exists (LoanFail e), w', [].
    split; [reflexivity|]. split; [exact Hh|]. split; [exact Hdb|].
    split; [left; reflexivity | constructor].
  - intros e w' lid uid libro utente _ Hl _ _ _ _ _ Hdb Hh.
    eexists (LoanFail e), w', [_].
    split; [reflexivity|]. split; [rewrite Hh, Hdb; reflexivity|].
    split; [exact Hdb|]. split.
    + right. exists lid, (prestito_inserito w uid lid giorni).
      split; [exact Hl|].
      split; [apply prestito_inserito_fields|].
      split; [apply prestito_inserito_fields|]. left. reflexivity.
    + constructor; [|constructor]. left. reflexivity.
  - intros w' lid uid libro utente copie dis libri' _ Hl _ _ _ _ _ _ _ _ Hdb Hh
      _ _ _ _.
    eexists _, w', [_; _].
    split; [reflexivity|]. split; [rewrite Hh, Hdb; reflexivity|].
    split; [exact Hdb|]. split.
    + right. exists lid, (prestito_inserito w uid lid giorni).
      split; [exact Hl|].
      split; [apply prestito_inserito_fields|].
      split; [apply prestito_inserito_fields|]. right. eexists. reflexivity.
    + constructor; [|constructor; [|constructor]].
      * right. exists lid, (prestito_inserito w uid lid giorni).
        split; [exact Hl|]. split; [apply prestito_inserito_fields|].
        reflexivity.
      * left. reflexivity.
Qed.

(** ** C4: conservation over sequential loans *)

(** What a successful call did. *)
Lemma crea_prestito_success utente_id libro_id giorni w id due w' :
  crea_prestito utente_id libro_id giorni w = (Ret (LoanOk id due), w') →
  ∃ lid uid libro c,
    ObjectId libro_id = Some lid ∧ ObjectId utente_id = Some uid ∧
    trova Libri lid w = Some libro ∧
    libro !! "numero_copie" = Some (VInt c) ∧ 0 < c ∧
    (∃ libro', trova Libri lid w' = Some libro' ∧
               libro' !! "numero_copie" = Some (VInt (c - 1))) ∧
    prestiti (db w') =
      (prestiti (db w) ++ [prestito_inserito w uid lid giorni])%list ∧
    due = clock w (S (ticks w)) + giorni * us_per_day ∧
    same_env w w' ∧ ticks w' = (3 + ticks w)%nat.
Proof.
  apply (crea_prestito_elim utente_id libro_id giorni w
           (λ res, res = (Ret (LoanOk id due), w') → _)).
  - discriminate.
  - discriminate.
  - intros w1 lid uid libro utente copie dis libri' Henv Hl Hu Hf Hnd _ _ Hc
      Hdis Hupd Hdb _ Ht _ _ _ [= <- <- <-].
    destruct (libro_aggiornato _ _ _ _ _ _ Hf Hnd Hc Hdis Hupd)
      as (j & c & Hj & Hcopie & Hpos & Hlibri & Hfind).
    cbn zeta in Hlibri, Hfind.
    exists lid, uid, libro, c. repeat split; try assumption; try apply Henv.
    + eexists. split.
      * unfold trova. destruct Henv as (_ & _ & _ & ->).
        rewrite Hdb. exact Hfind.
      * rewrite lookup_insert_ne by discriminate. apply lookup_insert_eq.
    + rewrite Hdb. reflexivity.
Qed.

(** C4 (counterexample).  Under a clock that reads microseconds, one call
    with the default period against the sample book (three copies, an
    existing active member) succeeds and returns its call time plus 30
    days; the Loan it stored is due two microseconds earlier, on the whole
    millisecond, which is no clock reading plus 30 days. *)
Lemma C4_stored_due_is_cut_to_milliseconds :
  let run := crea_prestiti Sample.libro_1984 [(Sample.utente_attivo, None)]
               Esempi.world_micro in
  clock Esempi.world_micro 1 = Sample.t0 + 2 ∧
  run.1 = Ret [LoanOk (Sample.hex24 0xf000) (Sample.t0 + 2 + 30 * us_per_day)] ∧
  ∃ loan,
    prestiti (db run.2) = [loan] ∧
    loan !! "libro_id" = Some (VOid Sample.libro_1984) ∧
    loan !! "stato" = Some (VStr "attivo") ∧
    loan !! "data_scadenza" = Some (VDate (Sample.t0 + 30 * us_per_day)) ∧
    ∀ n, loan !! "data_scadenza"
         ≠ Some (VDate (clock Esempi.world_micro n + 30 * us_per_day)).
Proof.
  cbv zeta. split; [vm_compute; reflexivity|].
  split; [vm_compute; reflexivity|].
  exists (prestito_inserito Esempi.world_micro Sample.utente_attivo
            Sample.libro_1984 30).
  assert (Hdue : prestito_inserito Esempi.world_micro Sample.utente_attivo
                   Sample.libro_1984 30 !! "data_scadenza"
                 = Some (VDate (Sample.t0 + 30 * us_per_day)))
    by compute_done.
  split; [compute_done|]. split; [compute_done|]. split; [compute_done|].
  split; [exact Hdue|].
  intros n. rewrite Hdue. intros [= H].
  cbn [clock Esempi.world_micro] in H. lia.
Qed.

(** C4 (amended).  After N sequential calls of [crea_prestito] against one
    Book that all returned success, the Book's [numero_copie], [C] before,
    is [C - N] (so [N <= C]), and the calls appended exactly N Loan
    documents, each referencing the Book, in state ['attivo'], and due at
    the clock reading of its own call plus its period in days (30 days
    when left to the default), cut down to the whole millisecond as the
    store keeps datetimes. *)
Theorem C4_conservation_over_sequential_loans
    libro_id lid (reqs : list (string * option Z)) w libro C rs w' :
  ObjectId libro_id = Some lid →
  trova Libri lid w = Some libro →
  libro !! "numero_copie" = Some (VInt C) →
  crea_prestiti libro_id reqs w = (Ret rs, w') →
  Forall (λ r, success r = true) rs →
  (reqs ≠ [] → Z.of_nat (length reqs) ≤ C) ∧
  (∃ libro', trova Libri lid w' = Some libro' ∧
             libro' !! "numero_copie" = Some (VInt (C - Z.of_nat (length reqs)))) ∧
  ∃ news : list doc,
    prestiti (db w') = (prestiti (db w) ++ news)%list ∧
    length news = length reqs ∧
    ∀ (k : nat) (loan : doc), news !! k = Some loan →
      loan !! "libro_id" = Some (VOid lid) ∧
      loan !! "stato" = Some (VStr "attivo") ∧
      ∃ u g, reqs !! k = Some (u, g) ∧
        loan !! "data_scadenza" =
          Some (VDate (millis (clock w (ticks w + 3 * k + 1)%nat
                               + default 30 g * us_per_day))).
Proof.
  intros Hl. revert w libro C rs.
  induction reqs as [|[u g] rest IH]; intros w libro C rs Hf HC Hrun Hok.
  - cbn in Hrun. injection Hrun as <- <-. cbn.
    split; [congruence|]. split.
    + exists libro. split; [assumption|]. rewrite Z.sub_0_r. assumption.
    + exists []. rewrite app_nil_r. split; [reflexivity|]. split; [reflexivity|].
      intros k loan Hk. rewrite lookup_nil in Hk. discriminate.
  - cbn [crea_prestiti] in Hrun. unfold mbind, M_bind in Hrun.
    destruct (crea_prestito_call u libro_id g w) as [[r|e] w1] eqn:Hcall;
      [|discriminate].
    destruct (crea_prestiti libro_id rest w1) as [[rs'|e] w2] eqn:Hrest;
      [|discriminate].
    cbn in Hrun. injection Hrun as <- <-.
    apply Forall_cons in Hok as [Hr Hok].
    destruct r as [id due|]; [|discriminate].
    unfold crea_prestito_call in Hcall.
    destruct (crea_prestito_success _ _ _ _ _ _ _ Hcall)
      as (lid' & uid & libro0 & c & Hl' & Hu & Hf0 & Hc0 & Hpos & (libro1 & Hf1 & Hc1)
          & Hpre & _ & (Hclock & _ & _ & _) & Hticks).
    assert (lid' = lid) as -> by congruence.
    assert (libro0 = libro) as -> by congruence.
    assert (c = C) as -> by congruence.
    destruct (IH w1 libro1 (C - 1) rs' Hf1 Hc1 Hrest Hok)
      as (Hle & (libro' & Hf' & Hc') & news & Hnews & Hlen & Hall).
    cbn [length]. split.
    { intros _. destruct rest; [cbn; lia|].
      assert (Z.of_nat (length (p :: rest)) ≤ C - 1) by (apply Hle; discriminate).
      lia. }
    split.
    + exists libro'. split; [assumption|].
      replace (C - Z.of_nat (S (length rest)))
        with (C - 1 - Z.of_nat (length rest)) by lia.
      exact Hc'.
    + exists (prestito_inserito w uid lid (default 30 g) :: news).
      split. { rewrite Hnews, Hpre, <- app_assoc. reflexivity. }
      split. { cbn. rewrite Hlen. reflexivity. }
      intros [|k] loan Hk.
      * cbn in Hk. injection Hk as <-.
        split; [apply prestito_inserito_fields|].
        split; [apply prestito_inserito_fields|].
        exists u, g. split; [reflexivity|].
        replace (ticks w + 3 * 0 + 1)%nat with (S (ticks w)) by lia.
        apply prestito_inserito_fields.
      * cbn in Hk. destruct (Hall k loan Hk) as (H1 & H2 & u' & g' & Hreq & Hdue).
        split; [assumption|]. split; [assumption|].
        exists u', g'. split; [exact Hreq|].
        rewrite Hdue, Hclock, Hticks.
        replace (3 + ticks w + 3 * k + 1)%nat
          with (ticks w + 3 * S k + 1)%nat by lia.
        reflexivity.
Qed.

Lemma C4_conservation_over_sequential_loans_witness :
  ∃ rs w',
    crea_prestiti Sample.libro_1984 Sample.tre_richieste Esempi.world_micro
    = (Ret rs, w') ∧
    Forall (λ r, success r = true) rs ∧
    (Sample.tre_richieste ≠ [] → Z.of_nat (length Sample.tre_richieste) ≤ 3) ∧
    (∃ libro', trova Libri Sample.libro_1984 w' = Some libro' ∧
               libro' !! "numero_copie"
               = Some (VInt (3 - Z.of_nat (length Sample.tre_richieste)))) ∧
    ∃ news : list doc,
      prestiti (db w') = (prestiti (db Esempi.world_micro) ++ news)%list ∧
      length news = length Sample.tre_richieste ∧
      ∀ (k : nat) (loan : doc), news !! k = Some loan →
        loan !! "libro_id" = Some (VOid Sample.libro_1984) ∧
        loan !! "stato" = Some (VStr "attivo") ∧
        ∃ u g,
          Sample.tre_richieste !! k = Some (u, g) ∧
          loan !! "data_scadenza" =
            Some (VDate (millis
                           (clock Esempi.world_micro
                              (ticks Esempi.world_micro + 3 * k + 1)%nat
                            + default 30 g * us_per_day))).
Proof.
  destruct (crea_prestiti Sample.libro_1984 Sample.tre_richieste
              Esempi.world_micro)
    as [o w'] eqn:Hrun.
  assert (Ho : o = Ret [LoanOk (Sample.hex24 0xf000)
                          (Sample.t0 + 2 + 30 * us_per_day);
                        LoanOk (Sample.hex24 0xf001)
                          (Sample.t0 + 5 + 14 * us_per_day);
                        LoanOk (Sample.hex24 0xf002)
                          (Sample.t0 + 8 + 30 * us_per_day)]).
  { apply (f_equal fst) in Hrun. cbn [fst] in Hrun. rewrite <- Hrun.
    vm_compute. reflexivity. }
  subst o. eexists _, w'. split; [reflexivity|].
  split; [repeat constructor|].
  eapply (C4_conservation_over_sequential_loans
            Sample.libro_1984 Sample.libro_1984 Sample.tre_richieste
            Esempi.world_micro Sample.book_1984 3).
  - compute_done.
  - compute_done.
  - reflexivity.
  - exact Hrun.
  - repeat constructor.
Defined.

(** ** C1: a category name that names no category *)

(** C1 (counterexample).  The sample library has no category named
    "Poesia", yet a search for that category does not come back empty: it
    returns both books of the library. *)
Lemma C1_unknown_category_returns_books :
  trova_categoria "Poesia" Sample.world = None
  ∧ (cerca_libri None (Some "Poesia") None None Sample.world).1 ≠ Ret []
  ∧ match (cerca_libri None (Some "Poesia") None None Sample.world).1 with
    | Ret l => List.map (λ d : doc, d !! "titolo") l
    | Raise _ => []
    end = [Some (VStr "1984"); Some (VStr "L'Amica Geniale")].
Proof.
  split; [compute_done|].
  assert (T : match (cerca_libri None (Some "Poesia") None None Sample.world).1 with
              | Ret l => List.map (λ d : doc, d !! "titolo") l
              | Raise _ => []
              end = [Some (VStr "1984"); Some (VStr "L'Amica Geniale")])
    by (vm_compute; reflexivity).
  split; [|exact T]. intros H. rewrite H in T. discriminate T.
Qed.

(** C1 (amended).  When the category lookup completes and [categoria] names
    no existing Category, the category filter is left out: the search
    returns what the same search without [categoria] returns after that one
    round-trip, that is the books matching the text and availability
    filters alone. *)
Theorem C1_unknown_category_filter_dropped
    query (c : string) autore disponibile w :
  trova_categoria c w = None →
  fault w (calls w) = false →
  cerca_libri query (Some c) autore disponibile w =
  cerca_libri query None autore disponibile
    (if str_truthy (Some c) then set_calls (S (calls w)) w else w).
Proof.
  intros Hc F0. unfold trova_categoria in Hc. unfold_api.
  destruct (str_truthy (Some c)); [|reflexivity].
  change (categorie (db w)) with (coll_get Categorie (db w)) in Hc.
  rewrite F0, Hc. reflexivity.
Qed.

Lemma C1_unknown_category_filter_dropped_witness :
  cerca_libri None (Some "Poesia") None (Some true) Sample.world =
  cerca_libri None None None (Some true)
    (if str_truthy (Some "Poesia")
     then set_calls (S (calls Sample.world)) Sample.world else Sample.world).
Proof.
  apply (C1_unknown_category_filter_dropped
           None "Poesia" None (Some true) Sample.world).
  - compute_done.
  - reflexivity.
Defined.

(** ** C7: the statistics *)

Lemma matches_pair ts k1 c1 k2 c2 d :
  k1 ≠ k2 →
  matches ts (<[k1 := c1]> {[k2 := c2]}) d
  = clause_holds ts d k1 c1 && clause_holds ts d k2 c2.
Proof.
  intros Hne. unfold matches.
  destruct (clause_holds ts d k1 c1) eqn:E1, (clause_holds ts d k2 c2) eqn:E2;
    cbn.
  - apply bool_decide_eq_true. apply map_Forall_insert_2; [exact E1|].
    apply map_Forall_singleton. exact E2.
  - apply bool_decide_eq_false. intros H.
    apply map_Forall_insert in H as [_ H]; [|by apply lookup_singleton_ne].
    apply map_Forall_singleton in H. congruence.
  - apply bool_decide_eq_false. intros H.
    apply map_Forall_insert in H as [H _]; [|by apply lookup_singleton_ne].
    congruence.
  - apply bool_decide_eq_false. intros H.
    apply map_Forall_insert in H as [H _]; [|by apply lookup_singleton_ne].
    congruence.
Qed.

(** On a scalar field the equality match is plain equality. *)
Lemma field_eq_scalar (d : doc) k v :
  scalar_field k d = true → v ≠ VNone →
  field_eq (d !! k) v = bool_decide (d !! k = Some v).
Proof.
  unfold scalar_field, field_eq. intros Hs Hv.
  destruct (d !! k) as [x|].
  - destruct x; try discriminate; apply bool_decide_ext; split; congruence.
  - rewrite !bool_decide_eq_false_2; [reflexivity | discriminate | congruence].
Qed.



Lemma filter_all_true (p : doc → bool) l :
  (∀ d, p d = true) → List.filter p l = l.
Proof.
  intros H. induction l as [|x l IH]; [reflexivity|].
  cbn. rewrite H, IH. reflexivity.
Qed.




(** ** C8: store failures during the read-only operations *)

(** C8.  When a store round-trip of [cerca_libri] or of [statistiche] is
    scheduled to fail, the method does not raise: the search returns the
    empty list and the statistics the empty dict, the error is logged, and
    the database is left as it was. *)
Theorem C8_store_failure_degrades_to_empty
    query categoria autore disponibile w (k : nat) :
  fault w (calls w + k)%nat = true →
  ((k < cerca_round_trips categoria)%nat →
   ∃ e w', cerca_libri query categoria autore disponibile w = (Ret [], w') ∧
           log w' = ("Errore ricerca libri", e) :: log w ∧ db w' = db w) ∧
  ((k < 6)%nat →
   ∃ n w', statistiche w = (Ret ∅, w') ∧
           log w' = ("Errore statistiche", StoreError n) :: log w ∧
           db w' = db w).
Proof.
  intros Hk. split; intros Hlt.
  - unfold cerca_round_trips in Hlt. unfold_api.
    destruct categoria as [c|]; cbn [str_truthy] in *.
    + destruct (negb (String.eqb c EmptyString)).
      * destruct (fault w (calls w)) eqn:F0.
        { eexists _, _. repeat split. }
        cbn [fault calls set_calls db text_search coll_get].
        assert (F1 : fault w (S (calls w)) = true).
        { destruct k as [|[|k]]; [| |lia].
          - rewrite Nat.add_0_r in Hk. congruence.
          - rewrite <- Hk. f_equal. lia. }
        destruct (find _ _) as [cat|].
        -- destruct (dict_truthy cat).
           ++ destruct (getitem cat "_id").
              ** cbn [fault calls set_calls db text_search coll_get].
                 rewrite F1. eexists _, _. repeat split.
              ** eexists _, _. repeat split.
           ++ cbn [fault calls set_calls db text_search coll_get].
              rewrite F1. eexists _, _. repeat split.
        -- cbn [fault calls set_calls db text_search coll_get].
           rewrite F1. eexists _, _. repeat split.
      * assert (k = 0%nat) as -> by lia. rewrite Nat.add_0_r in Hk.
        rewrite Hk. eexists _, _. repeat split.
    + assert (k = 0%nat) as -> by lia. rewrite Nat.add_0_r in Hk.
      rewrite Hk. eexists _, _. repeat split.
  - unfold_api.
    destruct (fault w (calls w)) eqn:F0; [eexists _, _; repeat split|].
    cbn [fault calls set_calls set_ticks ticks clock db text_search coll_get].
    destruct (fault w (S (calls w))) eqn:F1; [eexists _, _; repeat split|].
    cbn [fault calls set_calls set_ticks ticks clock db text_search coll_get].
    destruct (fault w (S (S (calls w)))) eqn:F2; [eexists _, _; repeat split|].
    cbn [fault calls set_calls set_ticks ticks clock db text_search coll_get].
    destruct (fault w (S (S (S (calls w))))) eqn:F3; [eexists _, _; repeat split|].
    cbn [fault calls set_calls set_ticks ticks clock db text_search coll_get].
    destruct (fault w (S (S (S (S (calls w)))))) eqn:F4;
      [eexists _, _; repeat split|].
    cbn [fault calls set_calls set_ticks ticks clock db text_search coll_get].
    destruct (fault w (S (S (S (S (S (calls w))))))) eqn:F5;
      [eexists _, _; repeat split|].
    exfalso.
    destruct k as [|[|[|[|[|[|k]]]]]]; [| | | | | |lia];
      rewrite ?Nat.add_0_r in Hk;
      repeat (rewrite Nat.add_succ_r in Hk); rewrite ?Nat.add_0_r in Hk;
      congruence.
Qed.

Lemma C8_store_failure_degrades_to_empty_witness :
  ((1 < cerca_round_trips (Some "Fantascienza"))%nat →
   ∃ e w', cerca_libri None (Some "Fantascienza") None None
             (Sample.world_failing 1) = (Ret [], w') ∧
           log w' = ("Errore ricerca libri", e) :: log (Sample.world_failing 1) ∧
           db w' = db (Sample.world_failing 1)) ∧
  ((1 < 6)%nat →
   ∃ n w', statistiche (Sample.world_failing 1) = (Ret ∅, w') ∧
           log w' = ("Errore statistiche", StoreError n)
                    :: log (Sample.world_failing 1) ∧
           db w' = db (Sample.world_failing 1)).
Proof.
  apply (C8_store_failure_degrades_to_empty
           None (Some "Fantascienza") None None (Sample.world_failing 1) 1).
  reflexivity.
Defined.

(** * Further properties of the code *)

(** ** [crea_prestito]: what every written call went through *)

Section crea_prestito_elim_full.
Variables (utente_id libro_id : string) (giorni : Z) (w : World).
Variable P : outcome loan_result * World → Prop.

Let due := clock w (S (ticks w)) + giorni * us_per_day.

Hypothesis rejected : ∀ e w',
  db w' = db w → hist w' = hist w → P (Ret (LoanFail e), w').

Hypothesis written : ∀ r w' lid uid libro utente,
  same_env w w' →
  ObjectId libro_id = Some lid → ObjectId utente_id = Some uid →
  fault w (calls w) = false → fault w (S (calls w)) = false →
  fault w (S (S (calls w))) = false →
  trova Libri lid w = Some libro →
  libro_non_disponibile (Some libro) = Ret false →
  trova Utenti uid w = Some utente →
  utente_non_valido (Some utente) = false →
  Z.abs giorni ≤ 999999999 → 0 ≤ due ≤ datetime_max →
  existsb (has_id (idgen w (nids w))) (prestiti (db w)) = false →
  prestiti (db w')
    = (prestiti (db w) ++ [prestito_inserito w uid lid giorni])%list →
  autori (db w') = autori (db w) → categorie (db w') = categorie (db w) →
  utenti (db w') = utenti (db w) →
  (match r with
   | LoanFail _ => libri (db w') = libri (db w)
   | LoanOk id d =>
       id = idgen w (nids w) ∧ d = due ∧
       fault w (S (S (S (calls w)))) = false ∧ log w' = log w ∧
       ∃ copie dis,
         getitem libro "numero_copie" = Ret copie ∧ py_gt copie 1 = Ret dis ∧
         update_first (matches (text_search w) (by_id lid))
           (aggiorna_libro dis) (libri (db w)) = Ret (libri (db w'))
   end) →
  P (Ret r, w').

Lemma crea_prestito_elim_full :
  P (crea_prestito utente_id libro_id giorni w).
Proof using All.
  unfold crea_prestito, try_except, crea_prestito_body, new_ObjectId.
  unfold mbind, M_bind, mret, M_ret, lift, raise, find_one, insert_one,
    update_one, store_read, store_write, datetime_now, logger_error.
  destruct (ObjectId libro_id) as [lid|] eqn:Hlid; cbn.
  2: { apply rejected; reflexivity. }
  destruct (fault w (calls w)) eqn:F0; cbn.
  { apply rejected; reflexivity. }
  destruct (find _ (libri (db w))) as [libro|] eqn:Hlibro; cbn.
  2: { apply rejected; reflexivity. }
  destruct (libro_non_disponibile (Some libro)) as [[]|e0] eqn:Hnd;
    cbn in Hnd; rewrite Hnd; cbn.
  1,3: apply rejected; reflexivity.
  destruct (ObjectId utente_id) as [uid|] eqn:Huid; cbn.
  2: { apply rejected; reflexivity. }
  destruct (fault w (S (calls w))) eqn:F1; cbn.
  { apply rejected; reflexivity. }
  destruct (find _ (utenti (db w))) as [utente|] eqn:Hutente; cbn.
  2: { apply rejected; reflexivity. }
  destruct (utente_non_valido (Some utente)) eqn:Hnv; cbn in Hnv; rewrite Hnv; cbn.
  { apply rejected; reflexivity. }
  destruct (timedelta_days giorni) as [delta|e1] eqn:Htd; cbn.
  2: { apply rejected; reflexivity. }
  assert (Hg : Z.abs giorni ≤ 999999999 ∧ delta = giorni * us_per_day).
  { unfold timedelta_days in Htd. destruct (Z.leb_spec (Z.abs giorni) 999999999);
      [|discriminate]. split; [assumption|congruence]. }
  destruct Hg as [Hg ->].
  destruct (datetime_add _ _) as [ds|e2] eqn:Hda; cbn.
  2: { apply rejected; reflexivity. }
  assert (Hd : 0 ≤ due ≤ datetime_max ∧ ds = due).
  { unfold datetime_add in Hda.
    destruct (Z.leb_spec 0 (clock w (S (ticks w)) + giorni * us_per_day)),
      (Z.leb_spec (clock w (S (ticks w)) + giorni * us_per_day) datetime_max);
      cbn in Hda; try discriminate.
    injection Hda as <-. repeat split; assumption. }
  destruct Hd as [Hd ->].
  destruct (fault w (S (S (calls w)))) eqn:F2; cbn.
  { apply rejected; reflexivity. }
  destruct (existsb _ (prestiti (db w))) eqn:Hdup; cbn.
  { apply rejected; reflexivity. }
  destruct (getitem libro "numero_copie") as [copie|e3] eqn:Hcopie; cbn.
  2: { eapply (written (LoanFail _)); cbn; try reflexivity; try eassumption.
       repeat split; reflexivity. }
  destruct (py_gt copie 1) as [dis|e4] eqn:Hdis; cbn.
  2: { eapply (written (LoanFail _)); cbn; try reflexivity; try eassumption.
       repeat split; reflexivity. }
  destruct (fault w (S (S (S (calls w))))) eqn:F3; cbn.
  { eapply (written (LoanFail _)); cbn; try reflexivity; try eassumption.
    repeat split; reflexivity. }
  destruct (update_first _ _ (libri (db w))) as [libri'|e5] eqn:Hupd; cbn.
  2: { eapply (written (LoanFail _)); cbn; try reflexivity; try eassumption.
       repeat split; reflexivity. }
  eapply (written (LoanOk _ _)); cbn; try reflexivity; try eassumption.
  - repeat split; reflexivity.
  - repeat split; try reflexivity. exists copie, dis. repeat split; assumption.
Qed.
End crea_prestito_elim_full.

(** A book that passed the check has a truthy flag, and its count can be
    read and compared. *)
Lemma libro_disponibile_inv libro :
  libro_non_disponibile (Some libro) = Ret false →
  get_truthy libro "disponibile" = true ∧
  ∃ copie dis, getitem libro "numero_copie" = Ret copie ∧
               py_gt copie 1 = Ret dis.
Proof.
  unfold libro_non_disponibile, getitem.
  destruct (negb (dict_truthy libro)); [discriminate|].
  destruct (get_truthy libro "disponibile"); [|discriminate]. cbn.
  destruct (libro !! "numero_copie") as [v|]; [|discriminate]. cbn.
  unfold py_le, py_gt. destruct (py_int v) eqn:E; [|discriminate].
  intros _. split; [reflexivity|]. exists v, (1 <? a).
  split; [reflexivity | rewrite E; reflexivity].
Qed.

Lemma utente_valido_inv utente :
  utente_non_valido (Some utente) = false → get_truthy utente "attivo" = true.
Proof.
  unfold utente_non_valido. intros H. apply orb_false_elim in H as [_ H].
  apply negb_false_iff in H. exact H.
Qed.

(** What a call that returned success found and did. *)
Lemma crea_prestito_created utente_id libro_id giorni w id due w' :
  crea_prestito utente_id libro_id giorni w = (Ret (LoanOk id due), w') →
  ∃ lid uid libro utente c,
    ObjectId libro_id = Some lid ∧ ObjectId utente_id = Some uid ∧
    trova Libri lid w = Some libro ∧
    get_truthy libro "disponibile" = true ∧
    libro !! "numero_copie" = Some (VInt c) ∧ 0 < c ∧
    trova Utenti uid w = Some utente ∧ get_truthy utente "attivo" = true ∧
    id = idgen w (nids w) ∧
    due = clock w (S (ticks w)) + giorni * us_per_day ∧
    Z.abs giorni ≤ 999999999 ∧ 0 ≤ due ≤ datetime_max ∧
    existsb (has_id id) (prestiti (db w)) = false ∧
    prestiti (db w')
      = (prestiti (db w) ++ [prestito_inserito w uid lid giorni])%list ∧
    (∃ j, libri (db w) !! j = Some libro ∧
          libri (db w') = <[j := libro_dopo libro c]> (libri (db w))) ∧
    trova Libri lid w' = Some (libro_dopo libro c) ∧
    autori (db w') = autori (db w) ∧ categorie (db w') = categorie (db w) ∧
    utenti (db w') = utenti (db w) ∧ same_env w w' ∧ log w' = log w.
Proof.
  apply (crea_prestito_elim_full utente_id libro_id giorni w
           (λ res, res = (Ret (LoanOk id due), w') → _)).
  - discriminate.
  - intros r w1 lid uid libro utente Henv Hl Hu _ _ _ Hf Hnd Hfu Hnv Hg Hd Hdup
      Hpre Ha Hc Hut Hr [= -> <-].
    destruct Hr as (-> & -> & _ & Hlog & copie & dis & Hcopie & Hdis & Hupd).
    destruct (libro_aggiornato _ _ _ _ _ _ Hf Hnd Hcopie Hdis Hupd)
      as (j & c & Hj & Hc' & Hpos & Hlibri & Hfind).
    cbn zeta in Hlibri, Hfind.
    exists lid, uid, libro, utente, c.
    repeat split; try assumption; try apply Henv; try apply Hd.
    + apply (libro_disponibile_inv _ Hnd).
    + apply utente_valido_inv, Hnv.
    + exists j. split; assumption.
    + unfold trova. destruct Henv as (_ & _ & _ & ->). exact Hfind.
Qed.

(** ** [crea_prestito]: who gets a loan *)

(** X1.  A call of [crea_prestito] returns success only when both ids are
    well-formed, the book is in the store with a truthy [disponibile] and
    a [numero_copie] that is present and for which the method's test
    [<= 0] is false, and the member is in the store with a truthy
    [attivo]. *)
Theorem loan_only_for_active_member_and_available_book
    utente_id libro_id giorni w id due :
  (crea_prestito utente_id libro_id giorni w).1 = Ret (LoanOk id due) →
  ∃ lid uid libro utente copie,
    ObjectId libro_id = Some lid ∧ ObjectId utente_id = Some uid ∧
    trova Libri lid w = Some libro ∧
    get_truthy libro "disponibile" = true ∧
    libro !! "numero_copie" = Some copie ∧ py_le copie 0 = Ret false ∧
    trova Utenti uid w = Some utente ∧
    get_truthy utente "attivo" = true.
Proof.
  destruct (crea_prestito utente_id libro_id giorni w) as [o w'] eqn:Hrun.
  cbn. intros ->.
  destruct (crea_prestito_created _ _ _ _ _ _ _ Hrun)
    as (lid & uid & libro & utente & c & Hl & Hu & Hf & Hd & Hc & Hpos & Hfu
        & Ha & _).
  exists lid, uid, libro, utente, (VInt c).
  repeat split; try assumption.
  unfold py_le. cbn [py_int]. f_equal. apply Z.leb_gt. exact Hpos.
Qed.

Lemma loan_only_for_active_member_and_available_book_witness :
  ∃ lid uid libro utente copie,
    ObjectId Sample.libro_1984 = Some lid ∧
    ObjectId Sample.utente_attivo = Some uid ∧
    trova Libri lid Sample.world = Some libro ∧
    get_truthy libro "disponibile" = true ∧
    libro !! "numero_copie" = Some copie ∧ py_le copie 0 = Ret false ∧
    trova Utenti uid Sample.world = Some utente ∧
    get_truthy utente "attivo" = true.
Proof.
  apply (loan_only_for_active_member_and_available_book
           Sample.utente_attivo Sample.libro_1984 30 Sample.world
           (Sample.hex24 0xf000) (Sample.t0 + 1000 + 30 * us_per_day)).
  vm_compute. reflexivity.
Defined.

(** ** [crea_prestito]: the book after a loan *)

Lemma book_inv_libro_dopo libro c : book_inv (libro_dopo libro c) = true.
Proof. apply book_inv_aggiornato. Qed.

(** X2.  After a call that returned success the loaned Book satisfies
    [available == (copy_count > 0)], whether or not it did before: the
    flag is overwritten with a boolean computed from the count. *)
Theorem successful_loan_establishes_invariant
    utente_id libro_id giorni w id due :
  (crea_prestito utente_id libro_id giorni w).1 = Ret (LoanOk id due) →
  ∃ lid libro c,
    ObjectId libro_id = Some lid ∧ trova Libri lid w = Some libro ∧
    libro !! "numero_copie" = Some (VInt c) ∧
    trova Libri lid (crea_prestito utente_id libro_id giorni w).2
      = Some (libro_dopo libro c) ∧
    book_inv (libro_dopo libro c) = true.
Proof.
  destruct (crea_prestito utente_id libro_id giorni w) as [o w'] eqn:Hrun.
  cbn. intros ->.
  destruct (crea_prestito_created _ _ _ _ _ _ _ Hrun)
    as (lid & uid & libro & utente & c & Hl & _ & Hf & _ & Hc & _ & _ & _ & _
        & _ & _ & _ & _ & _ & _ & Hf' & _).
  exists lid, libro, c. repeat split; try assumption.
  apply book_inv_libro_dopo.
Qed.

Lemma successful_loan_establishes_invariant_witness :
  book_inv Esempi.book_flag = false ∧
  ∃ lid libro c,
    ObjectId Esempi.libro_flag = Some lid ∧
    trova Libri lid Esempi.world_flag = Some libro ∧
    libro !! "numero_copie" = Some (VInt c) ∧
    trova Libri lid
      (crea_prestito Sample.utente_attivo Esempi.libro_flag 30
         Esempi.world_flag).2
      = Some (libro_dopo libro c) ∧
    book_inv (libro_dopo libro c) = true.
Proof.
  split; [compute_done|].
  apply (successful_loan_establishes_invariant
           Sample.utente_attivo Esempi.libro_flag 30 Esempi.world_flag
           (Sample.hex24 0xf000) (Sample.t0 + 1000 + 30 * us_per_day)).
  vm_compute. reflexivity.
Defined.

(** ** [crea_prestito]: what a success returns and writes *)

(** X3.  The [prestito_id] a successful call returns is that of the one
    document it appended to [prestiti], and the [data_scadenza] it returns
    is that document's before the store cut it down to the whole
    millisecond, less than a millisecond later than the stored one; the
    document references the member and the book of the call, its id was
    not in the collection before, and the call left authors, categories
    and members as they were and the number of books unchanged. *)
Theorem success_returns_the_inserted_loan
    utente_id libro_id giorni w id due :
  (crea_prestito utente_id libro_id giorni w).1 = Ret (LoanOk id due) →
  let w' := (crea_prestito utente_id libro_id giorni w).2 in
  ∃ loan lid uid,
    prestiti (db w') = (prestiti (db w) ++ [loan])%list ∧
    loan !! "_id" = Some (VOid id) ∧
    loan !! "data_scadenza" = Some (VDate (millis due)) ∧
    due - 1000 < millis due ≤ due ∧
    ObjectId utente_id = Some uid ∧ loan !! "utente_id" = Some (VOid uid) ∧
    ObjectId libro_id = Some lid ∧ loan !! "libro_id" = Some (VOid lid) ∧
    loan !! "stato" = Some (VStr "attivo") ∧
    existsb (has_id id) (prestiti (db w)) = false ∧
    autori (db w') = autori (db w) ∧ categorie (db w') = categorie (db w) ∧
    utenti (db w') = utenti (db w) ∧
    length (libri (db w')) = length (libri (db w)).
Proof.
  destruct (crea_prestito utente_id libro_id giorni w) as [o w'] eqn:Hrun.
  cbn. intros ->.
  destruct (crea_prestito_created _ _ _ _ _ _ _ Hrun)
    as (lid & uid & libro & utente & c & Hl & Hu & _ & _ & _ & _ & _ & _ & -> & ->
        & _ & _ & Hdup & Hpre & (j & _ & Hlibri) & _ & Ha & Hc & Hut & _).
  destruct (prestito_inserito_fields w uid lid giorni) as (F1 & F2 & F3 & F4 & F5).
  exists (prestito_inserito w uid lid giorni), lid, uid.
  split; [assumption|]. split; [assumption|]. split; [assumption|].
  split; [apply millis_bounds|].
  repeat split; try assumption.
  rewrite Hlibri. apply length_insert.
Qed.

Lemma success_returns_the_inserted_loan_witness :
  let w' := (crea_prestito Sample.utente_attivo Sample.libro_1984 30
               Esempi.world_micro).2 in
  let due := Sample.t0 + 2 + 30 * us_per_day in
  ∃ loan lid uid,
    prestiti (db w') = (prestiti (db Esempi.world_micro) ++ [loan])%list ∧
    loan !! "_id" = Some (VOid (Sample.hex24 0xf000)) ∧
    loan !! "data_scadenza" = Some (VDate (millis due)) ∧
    due - 1000 < millis due ≤ due ∧
    ObjectId Sample.utente_attivo = Some uid ∧
    loan !! "utente_id" = Some (VOid uid) ∧
    ObjectId Sample.libro_1984 = Some lid ∧
    loan !! "libro_id" = Some (VOid lid) ∧
    loan !! "stato" = Some (VStr "attivo") ∧
    existsb (has_id (Sample.hex24 0xf000)) (prestiti (db Esempi.world_micro))
    = false ∧
    autori (db w') = autori (db Esempi.world_micro) ∧
    categorie (db w') = categorie (db Esempi.world_micro) ∧
    utenti (db w') = utenti (db Esempi.world_micro) ∧
    length (libri (db w')) = length (libri (db Esempi.world_micro)).
Proof.
  apply (success_returns_the_inserted_loan
           Sample.utente_attivo Sample.libro_1984 30 Esempi.world_micro).
  vm_compute. reflexivity.
Defined.

(** ** [crea_prestito]: a period the date arithmetic cannot hold *)

(** X4.  [giorni] is not validated by the method, but a period beyond what
    [timedelta] accepts (more than 999999999 days either way), or one that
    takes the due date out of the datetime range, makes the call return a
    failure with nothing written. *)
Theorem period_out_of_range_fails_without_writing
    utente_id libro_id giorni w :
  999999999 < Z.abs giorni
  ∨ clock w (S (ticks w)) + giorni * us_per_day < 0
  ∨ datetime_max < clock w (S (ticks w)) + giorni * us_per_day →
  ∃ e w', crea_prestito utente_id libro_id giorni w = (Ret (LoanFail e), w') ∧
          db w' = db w ∧ hist w' = hist w.
Proof.
  intros Hbad. apply crea_prestito_elim_full.
  - intros e w' Hdb Hh. exists e, w'. repeat split; assumption.
  - intros r w' lid uid libro utente _ _ _ _ _ _ _ _ _ _ Hg Hd. exfalso. lia.
Qed.

Lemma period_out_of_range_fails_without_writing_witness :
  ∃ e w', crea_prestito Sample.utente_attivo Sample.libro_1984 1000000000
            Sample.world = (Ret (LoanFail e), w') ∧
          db w' = db Sample.world ∧ hist w' = hist Sample.world.
Proof.
  apply (period_out_of_range_fails_without_writing
           Sample.utente_attivo Sample.libro_1984 1000000000 Sample.world).
  left. reflexivity.
Defined.

(** ** [crea_prestito]: an inactive member *)

(** X5.  When both fetches complete and the book passes its check, a
    member document whose [attivo] is false or absent gets the failure
    ['Utente non valido'], and nothing is written. *)
Theorem inactive_member_rejected
    utente_id libro_id giorni w lid uid utente :
  ObjectId libro_id = Some lid → ObjectId utente_id = Some uid →
  fault w (calls w) = false → fault w (S (calls w)) = false →
  libro_non_disponibile (trova Libri lid w) = Ret false →
  trova Utenti uid w = Some utente →
  get_truthy utente "attivo" = false →
  crea_prestito utente_id libro_id giorni w =
  (Ret (LoanFail (Literal "Utente non valido")), set_calls (S (S (calls w))) w).
Proof.
  intros Hl Hu F0 F1 Hnd Hf Hatt.
  apply (crea_prestito_utente_rejected _ _ _ _ lid uid Hl F0 Hnd Hu F1).
  rewrite Hf. unfold utente_non_valido. rewrite Hatt. apply orb_true_r.
Qed.

Lemma inactive_member_rejected_witness :
  crea_prestito Sample.utente_sospeso Sample.libro_1984 30 Sample.world =
  (Ret (LoanFail (Literal "Utente non valido")),
   set_calls (S (S (calls Sample.world))) Sample.world).
Proof.
  apply (inactive_member_rejected
           Sample.utente_sospeso Sample.libro_1984 30 Sample.world
           Sample.libro_1984 Sample.utente_sospeso Sample.member_sospeso);
    compute_done.
Defined.

(** ** [crea_prestito]: the book update fails after the loan insert *)

Ltac wsimpl :=
  cbn [fault calls set_calls set_ticks set_nids set_db set_hist set_log
       ticks nids clock idgen db text_search hist log coll_get coll_set].

Lemma timedelta_days_ok giorni :
  Z.abs giorni ≤ 999999999 → timedelta_days giorni = Ret (giorni * us_per_day).
Proof.
  intros H. unfold timedelta_days. apply Z.leb_le in H. rewrite H. reflexivity.
Qed.

Lemma datetime_add_ok t delta :
  0 ≤ t + delta ≤ datetime_max → datetime_add t delta = Ret (t + delta).
Proof.
  intros [H1 H2]. unfold datetime_add.
  apply Z.leb_le in H1, H2. rewrite H1, H2. reflexivity.
Qed.

(** X6.  There is no rollback: when every check passes and the Loan insert
    completes but the round-trip of the Book update fails, the call returns
    a failure carrying the store error and logs it, the Loan document stays
    in [prestiti], and no Book is changed. *)
Theorem failed_book_update_keeps_the_loan
    utente_id libro_id giorni w lid uid libro utente :
  ObjectId libro_id = Some lid → ObjectId utente_id = Some uid →
  fault w (calls w) = false → fault w (S (calls w)) = false →
  fault w (S (S (calls w))) = false →
  fault w (S (S (S (calls w)))) = true →
  trova Libri lid w = Some libro →
  libro_non_disponibile (Some libro) = Ret false →
  trova Utenti uid w = Some utente →
  utente_non_valido (Some utente) = false →
  Z.abs giorni ≤ 999999999 →
  0 ≤ clock w (S (ticks w)) + giorni * us_per_day ≤ datetime_max →
  existsb (has_id (idgen w (nids w))) (prestiti (db w)) = false →
  ∃ w',
    crea_prestito utente_id libro_id giorni w
    = (Ret (LoanFail (StrOf (StoreError (S (S (S (calls w))))))), w') ∧
    prestiti (db w')
      = (prestiti (db w) ++ [prestito_inserito w uid lid giorni])%list ∧
    libri (db w') = libri (db w) ∧
    log w' = ("Errore creazione prestito", StoreError (S (S (S (calls w)))))
             :: log w.
Proof.
  intros Hl Hu F0 F1 F2 F3 Hf Hnd Hfu Hnv Hg Hd Hdup.
  destruct (libro_disponibile_inv _ Hnd) as (_ & copie & dis & Hcopie & Hdis).
  unfold trova in Hf, Hfu. cbn [coll_get] in Hf, Hfu. unfold_api.
  rewrite Hl, F0. wsimpl. rewrite Hf, Hnd, Hu. wsimpl.
  rewrite F1, Hfu, Hnv. wsimpl.
  rewrite (timedelta_days_ok _ Hg), (datetime_add_ok _ _ Hd). wsimpl.
  rewrite F2, Hdup. wsimpl.
  rewrite Hcopie, Hdis, F3.
  eexists. split; [reflexivity|]. repeat split.
Qed.

Lemma failed_book_update_keeps_the_loan_witness :
  ∃ w',
    crea_prestito Sample.utente_attivo Sample.libro_1984 30
      (Sample.world_failing 3)
    = (Ret (LoanFail (StrOf (StoreError
              (S (S (S (calls (Sample.world_failing 3)))))))), w') ∧
    prestiti (db w')
      = (prestiti (db (Sample.world_failing 3)) ++
         [prestito_inserito (Sample.world_failing 3) Sample.utente_attivo
            Sample.libro_1984 30])%list ∧
    libri (db w') = libri (db (Sample.world_failing 3)) ∧
    log w' = ("Errore creazione prestito",
              StoreError (S (S (S (calls (Sample.world_failing 3))))))
             :: log (Sample.world_failing 3).
Proof.
  apply (failed_book_update_keeps_the_loan
           Sample.utente_attivo Sample.libro_1984 30 (Sample.world_failing 3)
           Sample.libro_1984 Sample.utente_attivo
           Sample.book_1984 Sample.member_attivo);
    compute_done.
Defined.

(** ** [crea_prestito]: a book lent out to its last copy *)

(** What a run of successful loans leaves of the book. *)
Lemma crea_prestiti_libro libro_id lid (reqs : list (string * option Z)) :
  ObjectId libro_id = Some lid →
  ∀ w libro C rs w',
    trova Libri lid w = Some libro →
    libro !! "numero_copie" = Some (VInt C) →
    crea_prestiti libro_id reqs w = (Ret rs, w') →
    Forall (λ r, success r = true) rs →
    reqs ≠ [] →
    ∃ libro',
      trova Libri lid w' = Some libro' ∧
      libro' !! "numero_copie" = Some (VInt (C - Z.of_nat (length reqs))) ∧
      libro' !! "disponibile"
        = Some (VBool (0 <? C - Z.of_nat (length reqs))).
Proof.
  intros Hl. induction reqs as [|[u g] rest IH];
    intros w libro C rs w' Hf HC Hrun Hok Hne; [congruence|].
  cbn [crea_prestiti] in Hrun. unfold mbind, M_bind in Hrun.
  destruct (crea_prestito_call u libro_id g w) as [[r|e] w1] eqn:Hcall;
    [|discriminate].
  destruct (crea_prestiti libro_id rest w1) as [[rs'|e] w2] eqn:Hrest;
    [|discriminate].
  cbn in Hrun. injection Hrun as <- <-.
  apply Forall_cons in Hok as [Hr Hok].
  destruct r as [id due|]; [|discriminate].
  unfold crea_prestito_call in Hcall.
  destruct (crea_prestito_created _ _ _ _ _ _ _ Hcall)
    as (lid' & uid & libro0 & utente & c & Hl' & _ & Hf0 & _ & Hc0 & _ & _ & _ & _
        & _ & _ & _ & _ & _ & _ & Hf1 & _).
  assert (lid' = lid) as -> by congruence.
  assert (libro0 = libro) as -> by congruence.
  assert (c = C) as -> by congruence.
  cbn [length].
  replace (C - Z.of_nat (S (length rest)))
    with (C - 1 - Z.of_nat (length rest)) by lia.
  destruct rest as [|req rest'].
  - cbn in Hrest. injection Hrest as <- <-.
    exists (libro_dopo libro C). cbn [length]. rewrite Z.sub_0_r.
    split; [exact Hf1|]. unfold libro_dopo. split.
    + rewrite lookup_insert_ne by discriminate. apply lookup_insert_eq.
    + apply lookup_insert_eq.
  - apply (IH w1 (libro_dopo libro C) (C - 1) rs' w2 Hf1); try assumption.
    + unfold libro_dopo. rewrite lookup_insert_ne by discriminate.
      apply lookup_insert_eq.
    + discriminate.
Qed.

(** X7.  Once a book with [C] copies has been lent [C] times in a row, all
    calls returning success, its count is 0 and its flag false, and a
    further call whose book fetch completes returns ['Libro non
    disponibile'] and writes nothing, whoever asks. *)
Theorem exhausted_book_is_refused
    libro_id lid (reqs : list (string * option Z)) w libro C rs
    utente_id giorni :
  ObjectId libro_id = Some lid →
  trova Libri lid w = Some libro →
  libro !! "numero_copie" = Some (VInt C) →
  Z.of_nat (length reqs) = C → reqs ≠ [] →
  (crea_prestiti libro_id reqs w).1 = Ret rs →
  Forall (λ r, success r = true) rs →
  let w' := (crea_prestiti libro_id reqs w).2 in
  fault w' (calls w') = false →
  (∃ libro', trova Libri lid w' = Some libro' ∧
             libro' !! "numero_copie" = Some (VInt 0) ∧
             libro' !! "disponibile" = Some (VBool false)) ∧
  crea_prestito utente_id libro_id giorni w' =
  (Ret (LoanFail (Literal "Libro non disponibile")), set_calls (S (calls w')) w').
Proof.
  intros Hl Hf HC HN Hne.
  destruct (crea_prestiti libro_id reqs w) as [o w'] eqn:Hrun.
  cbn. intros -> Hok F0.
  destruct (crea_prestiti_libro _ _ _ Hl _ _ _ _ _ Hf HC Hrun Hok Hne)
    as (libro' & Hf' & Hc' & Hd').
  rewrite HN, Z.sub_diag in Hc', Hd'. cbn in Hd'.
  split; [exists libro'; repeat split; assumption|].
  apply (crea_prestito_libro_rejected _ _ _ _ lid Hl F0).
  rewrite Hf'. unfold libro_non_disponibile.
  rewrite (trova_truthy _ _ _ _ Hf'). cbn.
  unfold get_truthy. rewrite Hd'. reflexivity.
Qed.

Lemma exhausted_book_is_refused_witness :
  let w' := (crea_prestiti Sample.libro_1984 Sample.tre_richieste
               Sample.world).2 in
  (∃ libro', trova Libri Sample.libro_1984 w' = Some libro' ∧
             libro' !! "numero_copie" = Some (VInt 0) ∧
             libro' !! "disponibile" = Some (VBool false)) ∧
  crea_prestito Sample.utente_attivo Sample.libro_1984 30 w' =
  (Ret (LoanFail (Literal "Libro non disponibile")), set_calls (S (calls w')) w').
Proof.
  eapply (exhausted_book_is_refused
            Sample.libro_1984 Sample.libro_1984 Sample.tre_richieste
            Sample.world Sample.book_1984 3).
  - compute_done.
  - compute_done.
  - reflexivity.
  - reflexivity.
  - discriminate.
  - vm_compute. reflexivity.
  - repeat constructor.
  - vm_compute. reflexivity.
Defined.

(** ** [cerca_libri]: every way a search can end *)

Section cerca_libri_elim.
Variables (query categoria autore : option string) (disponibile : option bool).
Variable w : World.
Variable P : outcome (list doc) * World → Prop.

Hypothesis failed : ∀ e w',
  same_env w w' → db w' = db w → hist w' = hist w →
  (calls w < calls w' ≤ 2 + calls w)%nat →
  log w' = ("Errore ricerca libri", e) :: log w →
  fault w (calls w) = true ∨ fault w (S (calls w)) = true
  ∨ categoria_cid categoria w = Raise e →
  P (Ret [], w').

Hypothesis done : ∀ cid w',
  same_env w w' → db w' = db w → hist w' = hist w →
  (calls w < calls w' ≤ 2 + calls w)%nat →
  log w' = log w →
  categoria_cid categoria w = Ret cid →
  P (Ret (risultato w (condizioni query cid disponibile)), w').

Lemma cerca_libri_elim :
  P (cerca_libri query categoria autore disponibile w).
Proof using All.
  assert (Hfail : ∀ e w',
    same_env w w' → db w' = db w → hist w' = hist w →
    (calls w < calls w' ≤ 2 + calls w)%nat →
    log w' = ("Errore ricerca libri", e) :: log w →
    fault w (calls w) = true ∨ fault w (S (calls w)) = true
    ∨ categoria_cid categoria w = Raise e →
    P (Ret [], w')) by exact failed.
  assert (Hdone : ∀ cid w',
    same_env w w' → db w' = db w → hist w' = hist w →
    (calls w < calls w' ≤ 2 + calls w)%nat →
    log w' = log w →
    categoria_cid categoria w = Ret cid →
    P (Ret (risultato w (condizioni query cid disponibile)), w')) by exact done.
  clear failed done.
  unfold categoria_cid, trova_categoria in Hfail, Hdone.
  unfold_api. cbn [coll_get].
  destruct categoria as [c|].
  2: { destruct (fault w (calls w)) eqn:F0.
       - eapply Hfail; [repeat split| | |cbn; lia|reflexivity|auto]; reflexivity.
       - apply (Hdone None); [repeat split| | |cbn; lia| |]; reflexivity. }
  destruct (str_truthy (Some c)).
  2: { destruct (fault w (calls w)) eqn:F0.
       - eapply Hfail; [repeat split| | |cbn; lia|reflexivity|auto]; reflexivity.
       - apply (Hdone None); [repeat split| | |cbn; lia| |]; reflexivity. }
  destruct (fault w (calls w)) eqn:F0.
  { eapply Hfail; [repeat split| | |cbn; lia|reflexivity|auto]; reflexivity. }
  destruct (find _ (categorie (db w))) as [cat|].
  2: { cbn [fault calls set_calls db text_search].
       destruct (fault w (S (calls w))) eqn:F1.
       - eapply Hfail; [repeat split| | |cbn; lia|reflexivity|auto]; reflexivity.
       - apply (Hdone None); [repeat split| | |cbn; lia| |]; reflexivity. }
  destruct (dict_truthy cat).
  2: { cbn [fault calls set_calls db text_search].
       destruct (fault w (S (calls w))) eqn:F1.
       - eapply Hfail; [repeat split| | |cbn; lia|reflexivity|auto]; reflexivity.
       - apply (Hdone None); [repeat split| | |cbn; lia| |]; reflexivity. }
  destruct (getitem cat "_id") as [v|e].
  2: { eapply Hfail; [repeat split| | |cbn; lia|reflexivity|auto]; reflexivity. }
  cbn [fault calls set_calls db text_search].
  destruct (fault w (S (calls w))) eqn:F1.
  - eapply Hfail; [repeat split| | |cbn; lia|reflexivity|auto]; reflexivity.
  - apply (Hdone (Some v)); [repeat split| | |cbn; lia| |]; reflexivity.
Qed.
End cerca_libri_elim.

(** ** [cerca_libri] and [statistiche] are read-only *)

(** X8.  A search never writes and never raises: whatever its arguments
    and whatever fails, it makes one or two store round-trips and leaves
    the database as it was; it either returns with the log untouched, or
    returns the empty list with exactly one new error record. *)
Theorem cerca_libri_never_writes query categoria autore disponibile w :
  ∃ l w', cerca_libri query categoria autore disponibile w = (Ret l, w') ∧
          db w' = db w ∧ hist w' = hist w ∧
          (calls w < calls w' ≤ 2 + calls w)%nat ∧
          (log w' = log w ∨
           l = [] ∧ ∃ e, log w' = ("Errore ricerca libri", e) :: log w).
Proof.
  apply cerca_libri_elim.
  - intros e w' _ Hdb Hh Hc Hlog _. exists [], w'.
    repeat split; try assumption; try apply Hc. right. eauto.
  - intros cid w' _ Hdb Hh Hc Hlog _. eexists _, w'.
    repeat split; try assumption; try apply Hc. left. assumption.
Qed.

(** X9.  The statistics never write and never raise: they leave the
    database as it was, and either all six round-trips complete, the dict
    holds all six figures and the log is untouched, or a round-trip fails,
    the dict is empty and the store error is the one new log record. *)
Theorem statistiche_never_writes w :
  ∃ m w', statistiche w = (Ret m, w') ∧ db w' = db w ∧ hist w' = hist w ∧
          ((m = ∅ ∧ ∃ n, (calls w ≤ n < 6 + calls w)%nat ∧
              fault w n = true ∧
              log w' = ("Errore statistiche", StoreError n) :: log w) ∨
           (log w' = log w ∧ calls w' = (6 + calls w)%nat ∧
            ∀ k, k ∈ ["totale_libri"; "libri_disponibili"; "prestiti_attivi";
                      "utenti_registrati"; "prestiti_scaduti";
                      "libri_piu_prestati"] → is_Some (m !! k))).
Proof.
  unfold_api.
  destruct (fault w (calls w)) eqn:F0.
  { eexists _, _. repeat split. left. split; [reflexivity|].
    eexists. split; [|split; [exact F0 | reflexivity]]. lia. }
  cbn [fault calls set_calls set_ticks ticks clock db text_search coll_get].
  destruct (fault w (S (calls w))) eqn:F1.
  { eexists _, _. repeat split. left. split; [reflexivity|].
    eexists. split; [|split; [exact F1 | reflexivity]]. lia. }
  cbn [fault calls set_calls set_ticks ticks clock db text_search coll_get].
  destruct (fault w (S (S (calls w)))) eqn:F2.
  { eexists _, _. repeat split. left. split; [reflexivity|].
    eexists. split; [|split; [exact F2 | reflexivity]]. lia. }
  cbn [fault calls set_calls set_ticks ticks clock db text_search coll_get].
  destruct (fault w (S (S (S (calls w))))) eqn:F3.
  { eexists _, _. repeat split. left. split; [reflexivity|].
    eexists. split; [|split; [exact F3 | reflexivity]]. lia. }
  cbn [fault calls set_calls set_ticks ticks clock db text_search coll_get].
  destruct (fault w (S (S (S (S (calls w)))))) eqn:F4.
  { eexists _, _. repeat split. left. split; [reflexivity|].
    eexists. split; [|split; [exact F4 | reflexivity]]. lia. }
  cbn [fault calls set_calls set_ticks ticks clock db text_search coll_get].
  destruct (fault w (S (S (S (S (S (calls w))))))) eqn:F5.
  { eexists _, _. repeat split. left. split; [reflexivity|].
    eexists. split; [|split; [exact F5 | reflexivity]]. lia. }
  eexists _, _. split; [reflexivity|]. split; [reflexivity|].
  split; [reflexivity|]. right. split; [reflexivity|]. split; [reflexivity|].
  intros k Hk.
  repeat (apply elem_of_cons in Hk as [-> | Hk];
          [repeat (rewrite lookup_insert_ne by discriminate);
           rewrite lookup_insert_eq; eauto|]).
  apply elem_of_nil in Hk. destruct Hk.
Qed.

(** ** [cerca_libri]: the same search twice *)

Lemma categoria_cid_ext categoria w w' :
  db w' = db w → text_search w' = text_search w →
  categoria_cid categoria w' = categoria_cid categoria w.
Proof.
  intros Hdb Hts. unfold categoria_cid, trova_categoria. rewrite Hdb, Hts.
  reflexivity.
Qed.

Lemma risultato_ext mc w w' :
  db w' = db w → text_search w' = text_search w →
  risultato w' mc = risultato w mc.
Proof. intros Hdb Hts. unfold risultato. rewrite Hdb, Hts. reflexivity. Qed.

(** What a search returns when its round-trips complete. *)
Lemma cerca_libri_result query categoria autore disponibile w :
  fault w (calls w) = false → fault w (S (calls w)) = false →
  (cerca_libri query categoria autore disponibile w).1
  = Ret match categoria_cid categoria w with
        | Ret cid => risultato w (condizioni query cid disponibile)
        | Raise _ => []
        end.
Proof.
  intros F0 F1. apply cerca_libri_elim.
  - intros e w' _ _ _ _ _ [H | [H | H]]; [congruence | congruence |].
    rewrite H. reflexivity.
  - intros cid w' _ _ _ _ _ H. rewrite H. reflexivity.
Qed.

(** X10.  A search is repeatable: when the round-trips of two consecutive
    searches with the same arguments complete, the second returns the very
    list the first returned. *)
Theorem cerca_libri_repeatable query categoria autore disponibile w :
  (∀ k, (k < 4)%nat → fault w (calls w + k)%nat = false) →
  (cerca_libri query categoria autore disponibile
     (cerca_libri query categoria autore disponibile w).2).1
  = (cerca_libri query categoria autore disponibile w).1.
Proof.
  intros Hf.
  assert (F0 : fault w (calls w) = false).
  { rewrite <- (Hf 0%nat) by lia. f_equal. lia. }
  assert (F1 : fault w (S (calls w)) = false).
  { rewrite <- (Hf 1%nat) by lia. f_equal. lia. }
  rewrite (cerca_libri_result _ _ _ _ w F0 F1).
  assert (Hw : ∃ w', (cerca_libri query categoria autore disponibile w).2 = w'
                     ∧ same_env w w' ∧ db w' = db w
                     ∧ (calls w < calls w' ≤ 2 + calls w)%nat).
  { apply cerca_libri_elim.
    - intros e w' He Hdb _ Hc _ _. exists w'. auto.
    - intros cid w' He Hdb _ Hc _ _. exists w'. auto. }
  destruct Hw as (w' & -> & (_ & _ & Hfault & Hts) & Hdb & Hc).
  rewrite cerca_libri_result.
  - rewrite (categoria_cid_ext _ _ _ Hdb Hts).
    destruct (categoria_cid categoria w); [|reflexivity].
    rewrite (risultato_ext _ _ _ Hdb Hts). reflexivity.
  - rewrite Hfault.
    assert (calls w' = (calls w + 1)%nat ∨ calls w' = (calls w + 2)%nat)
      as [-> | ->] by lia; apply Hf; lia.
  - rewrite Hfault.
    assert (calls w' = (calls w + 1)%nat ∨ calls w' = (calls w + 2)%nat)
      as [E | E] by lia; rewrite E.
    + replace (S (calls w + 1)) with (calls w + 2)%nat by lia. apply Hf. lia.
    + replace (S (calls w + 2)) with (calls w + 3)%nat by lia. apply Hf. lia.
Qed.

Lemma cerca_libri_repeatable_witness :
  (cerca_libri (Some "1984") (Some "Fantascienza") None (Some true)
     (cerca_libri (Some "1984") (Some "Fantascienza") None (Some true)
        Sample.world).2).1
  = (cerca_libri (Some "1984") (Some "Fantascienza") None (Some true)
       Sample.world).1.
Proof.
  apply (cerca_libri_repeatable
           (Some "1984") (Some "Fantascienza") None (Some true) Sample.world).
  intros k _. reflexivity.
Defined.

(** ** [cerca_libri]: what the filters guarantee of every summary *)

Lemma matches_lookup ts (f : filter_doc) d k c :
  matches ts f d = true → f !! k = Some c → clause_holds ts d k c = true.
Proof.
  unfold matches. intros H Hk. apply bool_decide_eq_true in H.
  exact (H k c Hk).
Qed.

Lemma lookup_copy_field (b dst : doc) k' k :
  copy_field b k' dst !! k
  = if decide (k' = k)
    then match b !! k with Some v => Some v | None => dst !! k end
    else dst !! k.
Proof.
  unfold copy_field. destruct (decide (k' = k)) as [-> | Hne].
  - destruct (b !! k); [apply lookup_insert_eq | reflexivity].
  - destruct (b !! k'); [apply lookup_insert_ne, Hne | reflexivity].
Qed.

(** The projection keeps the six copied fields as the book has them. *)
Lemma project_libro_lookup (b : doc) ai ci k :
  k ∈ ["_id"; "titolo"; "isbn"; "anno_pubblicazione"; "disponibile";
       "numero_copie"] →
  project_libro b ai ci !! k = b !! k.
Proof.
  intros Hk. unfold project_libro.
  assert (Hk1 : k ≠ "autori" ∧ k ≠ "categoria").
  { repeat (apply elem_of_cons in Hk as [-> | Hk]; [split; discriminate|]).
    apply elem_of_nil in Hk. destruct Hk. }
  destruct Hk1 as [Ha Hc].
  assert (E : foldr (copy_field b) ∅
                ["_id"; "titolo"; "isbn"; "anno_pubblicazione"; "disponibile";
                 "numero_copie"] !! k = b !! k).
  { cbn [foldr]. rewrite !lookup_copy_field, lookup_empty.
    repeat (apply elem_of_cons in Hk as [-> | Hk];
            [repeat (destruct (decide _); try congruence);
             destruct (b !! _); reflexivity|]).
    apply elem_of_nil in Hk. destruct Hk. }
  destruct (omap _ ci).
  - rewrite lookup_insert_ne by congruence. exact E.
  - rewrite !lookup_insert_ne by congruence. exact E.
Qed.

Lemma lookup_condizioni_disponibile query cid b :
  condizioni query cid (Some b) !! "disponibile" = Some (CEq (VBool b)).
Proof. unfold condizioni. apply lookup_insert_eq. Qed.

Lemma lookup_condizioni_categoria query v disponibile :
  condizioni query (Some v) disponibile !! "categoria_id" = Some (CEq v).
Proof.
  unfold condizioni. destruct disponibile.
  - rewrite lookup_insert_ne by discriminate. apply lookup_insert_eq.
  - apply lookup_insert_eq.
Qed.

(** Every summary of [risultato] is the projection of a stored book that
    matches the conditions. *)
Lemma elem_of_risultato w mc (s : doc) :
  s ∈ risultato w mc →
  ∃ b, b ∈ libri (db w) ∧ matches (text_search w) mc b = true ∧
       s = project_libro b
             (lookup_stage (autori (db w)) "_id" (b !! "autore_ids"))
             (lookup_stage (categorie (db w)) "_id" (b !! "categoria_id")).
Proof.
  unfold risultato. intros H. apply list_elem_of_In, List.in_map_iff in H
    as (b & <- & Hb). apply List.filter_In in Hb as [Hb Hm].
  exists b. split; [apply list_elem_of_In, Hb|]. split; [exact Hm | reflexivity].
Qed.

(** X11.  With the availability filter set to [b], every summary a search
    returns carries a [disponibile] field that matches [b]: a search for
    available books never returns an unavailable one, and conversely. *)
Theorem cerca_libri_respects_availability
    query categoria autore (b : bool) w (s : doc) :
  match (cerca_libri query categoria autore (Some b) w).1 with
  | Ret l => s ∈ l
  | Raise _ => False
  end →
  field_eq (s !! "disponibile") (VBool b) = true.
Proof.
  apply (cerca_libri_elim query categoria autore (Some b) w
           (λ res, match res.1 with Ret l => s ∈ l | Raise _ => False end → _)).
  - intros e w' _ _ _ _ _ _ H. cbn in H. apply elem_of_nil in H. destruct H.
  - intros cid w' _ _ _ _ _ _ H. cbn in H.
    apply elem_of_risultato in H as (bk & _ & Hm & ->).
    rewrite project_libro_lookup by set_solver.
    apply (matches_lookup _ _ _ _ _ Hm (lookup_condizioni_disponibile _ _ _)).
Qed.

Lemma cerca_libri_respects_availability_witness :
  field_eq (project_libro Sample.book_1984 [Sample.orwell] [Sample.fantascienza]
              !! "disponibile") (VBool true) = true.
Proof.
  apply (cerca_libri_respects_availability
           None None None true Sample.world).
  apply (bool_decide_unpack _). vm_compute. exact I.
Defined.

(** X12.  When [categoria] names a category document with a string name
    and an id no other category shares, and books refer to their category
    by a single id, every summary a search for that category returns is
    labelled with that category's name. *)
Theorem cerca_libri_labels_the_category
    query (c : string) autore disponibile w cat cid (s : doc) :
  str_truthy (Some c) = true →
  trova_categoria c w = Some cat →
  cat !! "_id" = Some (VOid cid) → cat !! "nome" = Some (VStr c) →
  (∀ c' : doc, c' ∈ categorie (db w) → c' !! "_id" = Some (VOid cid) → c' = cat) →
  Forall (λ d, scalar_field "_id" d = true) (categorie (db w)) →
  Forall (λ b, scalar_field "categoria_id" b = true) (libri (db w)) →
  match (cerca_libri query (Some c) autore disponibile w).1 with
  | Ret l => s ∈ l
  | Raise _ => False
  end →
  s !! "categoria" = Some (VStr c).
Proof.
  intros Hc Hcat Hid Hnome Huniq Hsc Hsb.
  apply (cerca_libri_elim query (Some c) autore disponibile w
           (λ res, match res.1 with Ret l => s ∈ l | Raise _ => False end → _)).
  - intros e w' _ _ _ _ _ _ H. cbn in H. apply elem_of_nil in H. destruct H.
  - intros cid' w' _ _ _ _ _ Hcid H. cbn in H.
    unfold categoria_cid in Hcid. rewrite Hc, Hcat in Hcid.
    assert (Ht : dict_truthy cat = true).
    { unfold dict_truthy. apply negb_true_iff, bool_decide_eq_false.
      intros ->. rewrite lookup_empty in Hid. discriminate. }
    rewrite Ht in Hcid. unfold getitem in Hcid. rewrite Hid in Hcid.
    injection Hcid as <-.
    apply elem_of_risultato in H as (b & Hb & Hm & ->).
    pose proof (matches_lookup _ _ _ _ _ Hm (lookup_condizioni_categoria _ _ _))
      as Hcl. cbn in Hcl.
    rewrite Forall_forall in Hsb.
    rewrite (field_eq_scalar b "categoria_id" (VOid cid) (Hsb b Hb)) in Hcl
      by discriminate.
    apply bool_decide_eq_true in Hcl. rewrite Hcl.
    unfold lookup_stage, project_libro.
    apply List.find_some in Hcat as [Hin Hmc].
    assert (Hall : ∀ x, In x (List.filter (λ fd : doc, field_eq (fd !! "_id") (VOid cid))
                               (categorie (db w))) → x = cat).
    { intros x Hx. apply List.filter_In in Hx as [Hx Hp].
      rewrite Forall_forall in Hsc.
      assert (Hs : scalar_field "_id" x = true)
        by (apply Hsc, list_elem_of_In, Hx).
      rewrite (field_eq_scalar x "_id" (VOid cid) Hs) in Hp by discriminate.
      apply bool_decide_eq_true in Hp.
      apply Huniq; [apply list_elem_of_In, Hx | exact Hp]. }
    assert (Hne : In cat (List.filter (λ fd : doc, field_eq (fd !! "_id") (VOid cid))
                            (categorie (db w)))).
    { apply List.filter_In. split; [exact Hin|]. rewrite Hid. unfold field_eq.
      apply bool_decide_eq_true. reflexivity. }
    destruct (List.filter _ (categorie (db w))) as [|x r]; [destruct Hne|].
    assert (x = cat) as -> by (apply Hall; left; reflexivity).
    cbn [omap list_omap]. rewrite Hnome. apply lookup_insert_eq.
Qed.

Lemma cerca_libri_labels_the_category_witness :
  project_libro Sample.book_1984 [Sample.orwell] [Sample.fantascienza]
    !! "categoria" = Some (VStr "Fantascienza").
Proof.
  apply (cerca_libri_labels_the_category
           None "Fantascienza" None None Sample.world
           Sample.fantascienza Sample.cat_id).
  - reflexivity.
  - compute_done.
  - compute_done.
  - compute_done.
  - intros c' Hc' _. apply list_elem_of_singleton in Hc'. exact Hc'.
  - repeat constructor.
  - repeat constructor.
  - apply (bool_decide_unpack _). vm_compute. exact I.
Defined.

(** ** [statistiche] after a loan *)

(** The dict of the statistics when the six round-trips complete. *)
Lemma statistiche_run w :
  (∀ k, (k < 6)%nat → fault w (calls w + k)%nat = false) →
  ∃ m w',
    statistiche w = (Ret m, w') ∧ db w' = db w ∧
    m !! "totale_libri" = Some (SCount (length (libri (db w)))) ∧
    m !! "libri_disponibili"
      = Some (SCount (conta Libri {["disponibile" := CEq (VBool true)]} w)) ∧
    m !! "prestiti_attivi"
      = Some (SCount (conta Prestiti {["stato" := CEq (VStr "attivo")]} w)) ∧
    m !! "libri_piu_prestati" = Some (STop (classifica (db w))).
Proof.
  intros Hfault.
  assert (F0 : fault w (calls w) = false).
  { rewrite <- (Hfault 0%nat) by lia. f_equal. lia. }
  assert (F1 : fault w (S (calls w)) = false).
  { rewrite <- (Hfault 1%nat) by lia. f_equal. lia. }
  assert (F2 : fault w (S (S (calls w))) = false).
  { rewrite <- (Hfault 2%nat) by lia. f_equal. lia. }
  assert (F3 : fault w (S (S (S (calls w)))) = false).
  { rewrite <- (Hfault 3%nat) by lia. f_equal. lia. }
  assert (F4 : fault w (S (S (S (S (calls w))))) = false).
  { rewrite <- (Hfault 4%nat) by lia. f_equal. lia. }
  assert (F5 : fault w (S (S (S (S (S (calls w)))))) = false).
  { rewrite <- (Hfault 5%nat) by lia. f_equal. lia. }
  unfold_api.
  cbn [fault calls set_calls set_ticks ticks clock db text_search coll_get].
  rewrite F0. cbn [fault calls set_calls set_ticks ticks clock db text_search coll_get].
  rewrite F1. cbn [fault calls set_calls set_ticks ticks clock db text_search coll_get].
  rewrite F2. cbn [fault calls set_calls set_ticks ticks clock db text_search coll_get].
  rewrite F3. cbn [fault calls set_calls set_ticks ticks clock db text_search coll_get].
  rewrite F4. cbn [fault calls set_calls set_ticks ticks clock db text_search coll_get].
  rewrite F5. cbn [fault calls set_calls set_ticks ticks clock db text_search coll_get].
  rewrite (filter_all_true (matches (text_search w) ∅))
    by (intros; apply matches_empty).
  eexists _, _. split; [reflexivity|]. split; [reflexivity|].
  unfold conta, classifica. cbn [coll_get].
  repeat split;
    repeat (rewrite lookup_insert_ne by discriminate);
    apply lookup_insert_eq.
Qed.

(** X13.  A loan shows in the next statistics: after a call of
    [crea_prestito] that returned success, statistics whose round-trips
    complete report one active loan more than the store held before the
    call, and the same number of books. *)
Theorem successful_loan_counts_in_statistics
    utente_id libro_id giorni w id due :
  (crea_prestito utente_id libro_id giorni w).1 = Ret (LoanOk id due) →
  let w1 := (crea_prestito utente_id libro_id giorni w).2 in
  (∀ k, (k < 6)%nat → fault w1 (calls w1 + k)%nat = false) →
  ∃ m w2,
    statistiche w1 = (Ret m, w2) ∧
    m !! "prestiti_attivi"
      = Some (SCount (S (conta Prestiti {["stato" := CEq (VStr "attivo")]} w))) ∧
    m !! "totale_libri" = Some (SCount (length (libri (db w)))).
Proof.
  destruct (crea_prestito utente_id libro_id giorni w) as [o w1] eqn:Hrun.
  cbn. intros -> Hfault.
  destruct (crea_prestito_created _ _ _ _ _ _ _ Hrun)
    as (lid & uid & libro & utente & c & _ & _ & _ & _ & _ & _ & _ & _ & _ & _
        & _ & _ & _ & Hpre & (j & _ & Hlibri) & _ & _ & _ & _ & (_ & _ & _ & Hts) & _).
  destruct (statistiche_run w1 Hfault) as (m & w2 & Hst & _ & Htot & _ & Hatt & _).
  exists m, w2. split; [exact Hst|]. split.
  - rewrite Hatt. do 2 f_equal. unfold conta. cbn [coll_get].
    rewrite Hpre, Hts, List.filter_app, length_app. cbn [List.filter].
    rewrite matches_singleton. cbn [clause_holds].
    destruct (prestito_inserito_fields w uid lid giorni) as (_ & _ & -> & _).
    unfold field_eq. rewrite bool_decide_eq_true_2 by reflexivity.
    cbn. lia.
  - rewrite Htot, Hlibri, length_insert. reflexivity.
Qed.

Lemma successful_loan_counts_in_statistics_witness :
  let w1 := (crea_prestito Sample.utente_attivo Sample.libro_1984 30
               Sample.world).2 in
  ∃ m w2,
    statistiche w1 = (Ret m, w2) ∧
    m !! "prestiti_attivi"
      = Some (SCount (S (conta Prestiti {["stato" := CEq (VStr "attivo")]}
                           Sample.world))) ∧
    m !! "totale_libri" = Some (SCount (length (libri (db Sample.world)))).
Proof.
  apply (successful_loan_counts_in_statistics
           Sample.utente_attivo Sample.libro_1984 30 Sample.world
           (Sample.hex24 0xf000) (Sample.t0 + 1000 + 30 * us_per_day)).
  - vm_compute. reflexivity.
  - intros k _. vm_compute. reflexivity.
Defined.

(** ** [statistiche]: the ranking of the most borrowed books *)

Lemma peso_group_add k k' gs :
  peso k (group_add k' gs)
  = (peso k gs + (if bool_decide (k' = k) then 1 else 0))%nat.
Proof.
  induction gs as [|[k0 n] r IH]; cbn.
  - lia.
  - destruct (bool_decide_reflect (k' = k0)) as [-> | Hne]; cbn.
    + destruct (bool_decide (k0 = k)); lia.
    + rewrite IH. lia.
Qed.

Lemma prestiti_di_snoc k l d :
  prestiti_di k (l ++ [d])
  = (prestiti_di k l + (if bool_decide (chiave_libro d = k) then 1 else 0))%nat.
Proof.
  unfold prestiti_di. rewrite List.filter_app, length_app. cbn.
  destruct (bool_decide (chiave_libro d = k)); reflexivity.
Qed.

Lemma group_by_libro_snoc l d :
  group_by_libro (l ++ [d]) = group_add (chiave_libro d) (group_by_libro l).
Proof. unfold group_by_libro. rewrite foldl_app. reflexivity. Qed.

Lemma peso_group_by_libro k l : peso k (group_by_libro l) = prestiti_di k l.
Proof.
  induction l as [|d l IH] using rev_ind; [reflexivity|].
  rewrite group_by_libro_snoc, peso_group_add, prestiti_di_snoc, IH.
  reflexivity.
Qed.

Lemma elem_of_keys_group_add k k' gs :
  k ∈ (group_add k' gs).*1 ↔ k = k' ∨ k ∈ gs.*1.
Proof.
  induction gs as [|[k0 n] r IH]; cbn.
  - rewrite list_elem_of_singleton. split; [auto|].
    intros [H | H]; [exact H | apply elem_of_nil in H; destruct H].
  - destruct (bool_decide_reflect (k' = k0)) as [-> | Hne]; cbn.
    + rewrite !elem_of_cons. tauto.
    + rewrite !elem_of_cons, IH. cbn. tauto.
Qed.

Lemma NoDup_keys_group_add k gs :
  NoDup gs.*1 → NoDup (group_add k gs).*1.
Proof.
  induction gs as [|[k0 n] r IH]; cbn; intros Hnd.
  - apply NoDup_singleton.
  - apply NoDup_cons in Hnd as [Hnotin Hnd].
    destruct (bool_decide_reflect (k = k0)) as [-> | Hne]; cbn.
    + apply NoDup_cons. split; assumption.
    + apply NoDup_cons. split; [|apply IH, Hnd].
      rewrite elem_of_keys_group_add. intros [-> | H]; [congruence | contradiction].
Qed.

Lemma positive_group_add k gs :
  Forall (λ g : value * nat, (1 ≤ g.2)%nat) gs →
  Forall (λ g : value * nat, (1 ≤ g.2)%nat) (group_add k gs).
Proof.
  induction gs as [|[k0 n] r IH]; cbn; intros H.
  - repeat constructor.
  - apply Forall_cons in H as [H1 H2].
    destruct (bool_decide (k = k0)); constructor; cbn in *; try lia; auto.
Qed.

Lemma group_by_libro_wf l :
  NoDup (group_by_libro l).*1 ∧
  Forall (λ g : value * nat, (1 ≤ g.2)%nat) (group_by_libro l).
Proof.
  induction l as [|d l [IH1 IH2]] using rev_ind.
  - split; constructor.
  - rewrite group_by_libro_snoc. split.
    + apply NoDup_keys_group_add, IH1.
    + apply positive_group_add, IH2.
Qed.

Lemma peso_not_in k gs : k ∉ gs.*1 → peso k gs = 0%nat.
Proof.
  induction gs as [|[k0 n] r IH]; cbn; [reflexivity|]. intros H.
  apply not_elem_of_cons in H as [Hne H].
  rewrite bool_decide_eq_false_2 by congruence. rewrite IH by assumption.
  reflexivity.
Qed.

Lemma peso_elem k n gs : NoDup gs.*1 → (k, n) ∈ gs → peso k gs = n.
Proof.
  induction gs as [|[k0 n0] r IH]; cbn; intros Hnd Hin.
  - apply elem_of_nil in Hin. destruct Hin.
  - apply NoDup_cons in Hnd as [Hnotin Hnd].
    apply elem_of_cons in Hin as [[= <- <-] | Hin].
    + rewrite bool_decide_eq_true_2 by reflexivity.
      rewrite peso_not_in by assumption. lia.
    + assert (k0 ≠ k).
      { intros ->. apply Hnotin. apply list_elem_of_fmap.
        exists (k, n). split; [reflexivity | assumption]. }
      rewrite bool_decide_eq_false_2 by assumption. rewrite IH by assumption.
      reflexivity.
Qed.

Lemma sort_insert_perm g gs : sort_insert g gs ≡ₚ g :: gs.
Proof.
  induction gs as [|h r IH]; cbn [sort_insert]; [reflexivity|].
  destruct (g.2 <? h.2)%nat; [|reflexivity].
  rewrite IH. apply Permutation_swap.
Qed.

Lemma sort_by_count_perm gs : sort_by_count gs ≡ₚ gs.
Proof.
  unfold sort_by_count. induction gs as [|g r IH]; cbn [foldr]; [reflexivity|].
  rewrite sort_insert_perm, IH. reflexivity.
Qed.

Lemma sort_insert_sorted g gs :
  StronglySorted per_conteggio gs →
  StronglySorted per_conteggio (sort_insert g gs).
Proof.
  induction gs as [|h r IH]; cbn [sort_insert]; intros Hs.
  - repeat constructor.
  - apply StronglySorted_inv in Hs as [Hr Hh].
    destruct (Nat.ltb_spec g.2 h.2).
    + constructor; [apply IH, Hr|].
      rewrite sort_insert_perm. constructor; [unfold per_conteggio; lia|exact Hh].
    + constructor; [constructor; assumption|].
      constructor; [unfold per_conteggio; lia|].
      eapply Forall_impl; [exact Hh|]. unfold per_conteggio. intros; lia.
Qed.

Lemma sort_by_count_sorted gs : StronglySorted per_conteggio (sort_by_count gs).
Proof.
  unfold sort_by_count. induction gs as [|g r IH]; cbn [foldr]; [constructor|].
  apply sort_insert_sorted, IH.
Qed.

(** The ranked groups: at most five, in order, one per key, each with the
    number of loans of its key, and no unranked key with more loans. *)
Lemma top_five (l : list doc) :
  let top := take 5 (sort_by_count (group_by_libro l)) in
  (length top ≤ 5)%nat ∧
  StronglySorted per_conteggio top ∧
  NoDup top.*1 ∧
  (∀ k n, (k, n) ∈ top → n = prestiti_di k l ∧ (1 ≤ n)%nat) ∧
  (∀ d, d ∈ l → chiave_libro d ∉ top.*1 →
        length top = 5%nat ∧
        ∀ k n, (k, n) ∈ top → (prestiti_di (chiave_libro d) l ≤ n)%nat).
Proof.
  cbn zeta. set (gs := group_by_libro l). set (s := sort_by_count gs).
  destruct (group_by_libro_wf l) as [Hnd Hpos]. fold gs in Hnd, Hpos.
  assert (Hperm : s ≡ₚ gs) by apply sort_by_count_perm.
  assert (Hsorted : StronglySorted per_conteggio s) by apply sort_by_count_sorted.
  assert (Hnds : NoDup s.*1) by (rewrite Hperm; exact Hnd).
  assert (Hcount : ∀ k n, (k, n) ∈ s → n = prestiti_di k l ∧ (1 ≤ n)%nat).
  { intros k n Hin. rewrite Hperm in Hin. split.
    - rewrite <- (peso_elem k n gs Hnd Hin). apply peso_group_by_libro.
    - rewrite Forall_forall in Hpos. apply (Hpos (k, n) Hin). }
  rewrite <- (take_drop 5 s) in Hsorted, Hnds.
  split; [rewrite length_take; lia|].
  split; [eapply StronglySorted_app_1_l, Hsorted|].
  split. { rewrite fmap_app in Hnds. apply NoDup_app in Hnds as [H _].
           rewrite fmap_take. rewrite <- fmap_take. exact H. }
  split. { intros k n Hin. apply Hcount. apply elem_of_take in Hin as (i & Hi & _).
           eapply list_elem_of_lookup_2, Hi. }
  intros d Hd Hnot.
  assert (Hpeso : (1 ≤ peso (chiave_libro d) gs)%nat).
  { unfold gs. rewrite peso_group_by_libro. unfold prestiti_di.
    apply list_elem_of_In in Hd.
    assert (Hin : In d (List.filter
                          (λ d0, bool_decide (chiave_libro d0 = chiave_libro d)) l)).
    { apply List.filter_In. split; [exact Hd|].
      apply bool_decide_eq_true. reflexivity. }
    destruct (List.filter _ l); [destruct Hin | cbn; lia]. }
  assert (Hkey : chiave_libro d ∈ gs.*1).
  { destruct (decide (chiave_libro d ∈ gs.*1)) as [H | H]; [exact H|].
    rewrite (peso_not_in _ _ H) in Hpeso. lia. }
  rewrite <- Hperm in Hkey.
  apply list_elem_of_fmap in Hkey as ([k0 n0] & Hk0 & Hin0). cbn in Hk0. subst k0.
  rewrite <- (take_drop 5 s) in Hin0. apply elem_of_app in Hin0 as [Hin0 | Hin0].
  { exfalso. apply Hnot. apply list_elem_of_fmap.
    exists (chiave_libro d, n0). split; [reflexivity | exact Hin0]. }
  split.
  - rewrite length_take.
    destruct (decide (length s ≤ 5)%nat) as [Hle | Hgt]; [|lia].
    rewrite drop_ge in Hin0 by exact Hle. apply elem_of_nil in Hin0. destruct Hin0.
  - intros k n Hin.
    pose proof (StronglySorted_app_1_elem_of _ _ _ _ _ Hsorted Hin Hin0) as Hle.
    unfold per_conteggio in Hle. cbn in Hle.
    assert ((chiave_libro d, n0) ∈ s).
    { rewrite <- (take_drop 5 s). apply elem_of_app. right. exact Hin0. }
    destruct (Hcount _ _ H) as [-> _]. exact Hle.
Qed.

Lemma classifica_groups d :
  (classifica d).*1 = take 5 (sort_by_count (group_by_libro (prestiti d))).
Proof.
  unfold classifica. rewrite <- list_fmap_compose.
  rewrite <- (list_fmap_id (take 5 _)) at 2.
  apply list_fmap_ext. intros _ [k n] _. reflexivity.
Qed.

(** X14.  When the round-trips of the statistics complete, the ranking
    under ['libri_piu_prestati'] has at most five rows, in non-increasing
    order of count, one row per book key; each row's count is the number
    of Loan documents with that key and is at least one; and a loan whose
    key is not ranked means the ranking is full and no ranked key has
    fewer loans than that one. *)
Theorem ranking_is_a_top_five w :
  (∀ k, (k < 6)%nat → fault w (calls w + k)%nat = false) →
  ∃ m w' rows,
    statistiche w = (Ret m, w') ∧
    m !! "libri_piu_prestati" = Some (STop rows) ∧
    (length rows ≤ 5)%nat ∧
    StronglySorted per_conteggio rows.*1 ∧
    NoDup rows.*1.*1 ∧
    (∀ k n, (k, n) ∈ rows.*1 →
            n = prestiti_di k (prestiti (db w)) ∧ (1 ≤ n)%nat) ∧
    (∀ d, d ∈ prestiti (db w) → chiave_libro d ∉ rows.*1.*1 →
          length rows = 5%nat ∧
          ∀ k n, (k, n) ∈ rows.*1 →
                 (prestiti_di (chiave_libro d) (prestiti (db w)) ≤ n)%nat).
Proof.
  intros Hfault.
  destruct (statistiche_run w Hfault) as (m & w' & Hst & _ & _ & _ & _ & Htop).
  exists m, w', (classifica (db w)). split; [exact Hst|]. split; [exact Htop|].
  destruct (top_five (prestiti (db w))) as (H1 & H2 & H3 & H4 & H5).
  cbn zeta in *.
  assert (Hlen : length (classifica (db w))
                 = length (take 5 (sort_by_count (group_by_libro (prestiti (db w)))))).
  { rewrite <- classifica_groups. rewrite length_fmap. reflexivity. }
  rewrite classifica_groups, Hlen.
  split; [exact H1|]. split; [exact H2|]. split; [exact H3|].
  split; [exact H4 | exact H5].
Qed.

Lemma ranking_is_a_top_five_witness :
  ∃ m w' rows,
    statistiche Sample.world_stats = (Ret m, w') ∧
    m !! "libri_piu_prestati" = Some (STop rows) ∧
    (length rows ≤ 5)%nat ∧
    StronglySorted per_conteggio rows.*1 ∧
    NoDup rows.*1.*1 ∧
    (∀ k n, (k, n) ∈ rows.*1 →
            n = prestiti_di k (prestiti (db Sample.world_stats)) ∧ (1 ≤ n)%nat) ∧
    (∀ d, d ∈ prestiti (db Sample.world_stats) →
          chiave_libro d ∉ rows.*1.*1 →
          length rows = 5%nat ∧
          ∀ k n, (k, n) ∈ rows.*1 →
                 (prestiti_di (chiave_libro d)
                    (prestiti (db Sample.world_stats)) ≤ n)%nat).
Proof.
  apply (ranking_is_a_top_five Sample.world_stats).
  intros k _. reflexivity.
Defined.

(** ** [convert_objectid] *)

Section convert_objectid_facts.
Variable isoformat : Z → string.

Lemma convert_objectid_clean :
  ∀ v, json_clean (convert_objectid isoformat v) = true.
Proof.
  fix IH 1. intros [| | | | | |l]; cbn; try reflexivity.
  induction l as [|x l IHl]; cbn; [reflexivity|].
  rewrite IH, IHl. reflexivity.
Qed.

Lemma convert_objectid_fixed :
  ∀ v, json_clean v = true → convert_objectid isoformat v = v.
Proof.
  fix IH 1. intros [| | | | | |l]; cbn; try reflexivity; try discriminate.
  intros H. f_equal. induction l as [|x l IHl]; cbn; [reflexivity|].
  cbn in H. apply andb_true_iff in H as [Hx Hl].
  rewrite (IH x Hx), (IHl Hl). reflexivity.
Qed.

Lemma convert_doc_clean (d : doc) :
  map_Forall (λ _ v, json_clean v = true) (convert_doc isoformat d).
Proof.
  unfold convert_doc. intros k v Hk. rewrite lookup_fmap in Hk.
  destruct (d !! k) as [x|]; [|discriminate]. injection Hk as <-.
  apply convert_objectid_clean.
Qed.

(** X15.  After [convert_objectid] a document has the same keys and holds
    no ObjectId and no datetime at any depth, inside lists included: an
    ObjectId field has become the string of the id. *)
Theorem convert_doc_leaves_no_objectid (d : doc) :
  dom (convert_doc isoformat d) = dom d ∧
  map_Forall (λ _ v, json_clean v = true) (convert_doc isoformat d) ∧
  ∀ k o, d !! k = Some (VOid o) →
         convert_doc isoformat d !! k = Some (VStr o).
Proof.
  unfold convert_doc. split; [apply dom_fmap_L|]. split.
  - apply convert_doc_clean.
  - intros k o Hk. rewrite lookup_fmap, Hk. reflexivity.
Qed.

(** X16.  [convert_objectid] changes nothing else: a document that holds no
    ObjectId and no datetime comes back as it was, and so converting twice
    gives what converting once gives. *)
Theorem convert_doc_idempotent (d : doc) :
  (map_Forall (λ _ v, json_clean v = true) d → convert_doc isoformat d = d) ∧
  convert_doc isoformat (convert_doc isoformat d) = convert_doc isoformat d.
Proof.
  assert (Hfix : ∀ d' : doc, map_Forall (λ _ v, json_clean v = true) d' →
                             convert_doc isoformat d' = d').
  { intros d' H. unfold convert_doc. apply map_eq. intros k.
    rewrite lookup_fmap. destruct (d' !! k) as [x|] eqn:E; [|reflexivity].
    cbn. f_equal. apply convert_objectid_fixed. exact (H k x E). }
  split; [apply Hfix|]. apply Hfix, convert_doc_clean.
Qed.

(** X17.  When its five reads complete, the data [generate_api_data] dumps
    holds the first five authors, categories and books and the first three
    members and loans of the store, converted: at most 21 documents, none
    of them holding an ObjectId or a datetime; and the store is not
    written. *)
Theorem sample_data_is_bounded_and_clean w :
  (∀ k, (k < 5)%nat → fault w (calls w + k)%nat = false) →
  ∃ s w',
    sample_data isoformat w = (Ret s, w') ∧ db w' = db w ∧
    s !! "autori"
      = Some (List.map (convert_doc isoformat) (take 5 (autori (db w)))) ∧
    s !! "categorie"
      = Some (List.map (convert_doc isoformat) (take 5 (categorie (db w)))) ∧
    s !! "libri"
      = Some (List.map (convert_doc isoformat) (take 5 (libri (db w)))) ∧
    s !! "utenti"
      = Some (List.map (convert_doc isoformat) (take 3 (utenti (db w)))) ∧
    s !! "prestiti"
      = Some (List.map (convert_doc isoformat) (take 3 (prestiti (db w)))) ∧
    map_Forall (λ key docs,
      (length docs ≤ 5)%nat ∧
      Forall (map_Forall (λ _ v, json_clean v = true)) docs) s.
Proof.
  intros Hfault.
  assert (F0 : fault w (calls w) = false).
  { rewrite <- (Hfault 0%nat) by lia. f_equal. lia. }
  assert (F1 : fault w (S (calls w)) = false).
  { rewrite <- (Hfault 1%nat) by lia. f_equal. lia. }
  assert (F2 : fault w (S (S (calls w))) = false).
  { rewrite <- (Hfault 2%nat) by lia. f_equal. lia. }
  assert (F3 : fault w (S (S (S (calls w)))) = false).
  { rewrite <- (Hfault 3%nat) by lia. f_equal. lia. }
  assert (F4 : fault w (S (S (S (S (calls w))))) = false).
  { rewrite <- (Hfault 4%nat) by lia. f_equal. lia. }
  unfold sample_data, find_limit.
  unfold mbind, M_bind, mret, M_ret, store_read. cbv beta.
  cbn [fault calls set_calls db coll_get].
  rewrite F0. cbn [fault calls set_calls db coll_get].
  rewrite F1. cbn [fault calls set_calls db coll_get].
  rewrite F2. cbn [fault calls set_calls db coll_get].
  rewrite F3. cbn [fault calls set_calls db coll_get].
  rewrite F4. cbn [fault calls set_calls db coll_get].
  eexists _, _. split; [reflexivity|]. split; [reflexivity|].
  unfold convert_sample.
  assert (Hclean : ∀ n (l : list doc), (n ≤ 5)%nat →
            (length (List.map (convert_doc isoformat) (take n l)) ≤ 5)%nat ∧
            Forall (map_Forall (λ _ v, json_clean v = true))
                   (List.map (convert_doc isoformat) (take n l))).
  { intros n l Hn. split.
    - rewrite List.length_map, length_take. lia.
    - apply List.Forall_map, Forall_forall. intros d _.
      apply convert_doc_clean. }
  rewrite !fmap_insert, fmap_empty.
  split; [apply lookup_insert_eq|].
  split; [rewrite lookup_insert_ne by discriminate; apply lookup_insert_eq|].
  split; [do 2 (rewrite lookup_insert_ne by discriminate);
          apply lookup_insert_eq|].
  split; [do 3 (rewrite lookup_insert_ne by discriminate);
          apply lookup_insert_eq|].
  split; [do 4 (rewrite lookup_insert_ne by discriminate);
          apply lookup_insert_eq|].
  repeat (apply map_Forall_insert_2; [apply Hclean; lia|]).
  apply map_Forall_empty.
Qed.

End convert_objectid_facts.

Lemma sample_data_is_bounded_and_clean_witness :
  ∃ s w',
    sample_data Esempi.isoformat Sample.world = (Ret s, w') ∧
    db w' = db Sample.world ∧
    s !! "autori"
      = Some (List.map (convert_doc Esempi.isoformat)
                (take 5 (autori (db Sample.world)))) ∧
    s !! "categorie"
      = Some (List.map (convert_doc Esempi.isoformat)
                (take 5 (categorie (db Sample.world)))) ∧
    s !! "libri"
      = Some (List.map (convert_doc Esempi.isoformat)
                (take 5 (libri (db Sample.world)))) ∧
    s !! "utenti"
      = Some (List.map (convert_doc Esempi.isoformat)
                (take 3 (utenti (db Sample.world)))) ∧
    s !! "prestiti"
      = Some (List.map (convert_doc Esempi.isoformat)
                (take 3 (prestiti (db Sample.world)))) ∧
    map_Forall (λ key docs,
      (length docs ≤ 5)%nat ∧
      Forall (map_Forall (λ _ v, json_clean v = true)) docs) s.
Proof.
  apply (sample_data_is_bounded_and_clean Esempi.isoformat Sample.world).
  intros k _. reflexivity.
Defined.

(** ** The commands [stats] and [cerca] *)

(** The statistics are the empty dict when one of their round-trips
    fails. *)
Lemma statistiche_empty_on_fault w (k : nat) :
  (k < 6)%nat → fault w (calls w + k)%nat = true →
  ∃ w', statistiche w = (Ret ∅, w').
Proof.
  intros Hlt Hk. unfold_api.
  destruct (fault w (calls w)) eqn:F0; [eexists; reflexivity|].
  cbn [fault calls set_calls set_ticks ticks clock db text_search coll_get].
  destruct (fault w (S (calls w))) eqn:F1; [eexists; reflexivity|].
  cbn [fault calls set_calls set_ticks ticks clock db text_search coll_get].
  destruct (fault w (S (S (calls w)))) eqn:F2; [eexists; reflexivity|].
  cbn [fault calls set_calls set_ticks ticks clock db text_search coll_get].
  destruct (fault w (S (S (S (calls w))))) eqn:F3; [eexists; reflexivity|].
  cbn [fault calls set_calls set_ticks ticks clock db text_search coll_get].
  destruct (fault w (S (S (S (S (calls w)))))) eqn:F4; [eexists; reflexivity|].
  cbn [fault calls set_calls set_ticks ticks clock db text_search coll_get].
  destruct (fault w (S (S (S (S (S (calls w))))))) eqn:F5; [eexists; reflexivity|].
  exfalso.
  destruct k as [|[|[|[|[|[|k]]]]]]; [| | | | | |lia];
    rewrite ?Nat.add_0_r in Hk;
    repeat (rewrite Nat.add_succ_r in Hk); rewrite ?Nat.add_0_r in Hk;
    congruence.
Qed.

(** [connect_database] when the ping completes. *)
Lemma connect_database_ok w :
  fault w (calls w) = false →
  connect_database w = (Ret true, set_calls (S (calls w)) w).
Proof.
  intros F0. unfold connect_database, try_except, mbind, M_bind, mret, M_ret,
    store_read. rewrite F0. reflexivity.
Qed.

Section commands_facts.
Variable str_datetime : Z → string.
Variable repr_list : list value → string.
Variable join_non_list : value → outcome string.
Variable repr_righe : list (value * nat * list doc) → string.

(** X18.  When the connection is up but a round-trip of the statistics
    fails, [stats] still prints its table, with 0 for every figure: the
    failure shows in the log only. *)
Theorem stats_prints_zeros_on_store_failure w (k : nat) :
  fault w (calls w) = false →
  (k < 6)%nat → fault w (S (calls w) + k)%nat = true →
  ∃ w', stats_cmd repr_righe w =
        (Ret [segno_statistiche +:+ " STATISTICHE BIBLIOTECA";
              ripeti "=" 30;
              "Totale libri: 0";
              "Libri disponibili: 0";
              "Prestiti attivi: 0";
              "Utenti registrati: 0";
              "Prestiti scaduti: 0"], w').
Proof.
  intros F0 Hlt Hk.
  destruct (statistiche_empty_on_fault (set_calls (S (calls w)) w) k Hlt Hk)
    as (w' & Hst).
  exists w'. unfold stats_cmd. unfold mbind, M_bind.
  rewrite (connect_database_ok w F0). cbn [negb]. rewrite Hst.
  reflexivity.
Qed.

(** A search whose availability filter no book matches returns the empty
    list. *)
Lemma cerca_libri_nessuno query categoria autore (b : bool) w :
  Forall (λ d : doc, field_eq (d !! "disponibile") (VBool b) = false)
         (libri (db w)) →
  ∃ w', cerca_libri query categoria autore (Some b) w = (Ret [], w').
Proof.
  intros Hall. apply cerca_libri_elim.
  - intros e w' _ _ _ _ _ _. exists w'. reflexivity.
  - intros cid w' _ _ _ _ _ _. exists w'. f_equal. f_equal.
    unfold risultato.
    replace (List.filter _ (libri (db w))) with (@nil doc); [reflexivity|].
    symmetry. rewrite Forall_forall in Hall.
    induction (libri (db w)) as [|d l IH]; [reflexivity|]. cbn.
    destruct (matches _ _ d) eqn:Hm.
    + pose proof (matches_lookup _ _ _ _ _ Hm
                    (lookup_condizioni_disponibile _ _ _)) as Hcl.
      cbn in Hcl. rewrite (Hall d) in Hcl by (left). discriminate.
    + apply IH. intros x Hx. apply Hall. right. exact Hx.
Qed.

(** X19.  [cerca] always filters on availability: without
    [--disponibile] the flag is [False], not absent.  So on a library
    whose books are all available, the command run without the flag
    prints ["Nessun libro trovato"], whatever text or category is asked
    for. *)
Theorem cerca_without_flag_hides_available_books query categoria w :
  fault w (calls w) = false →
  Forall (λ d : doc, d !! "disponibile" = Some (VBool true)) (libri (db w)) →
  ∃ w', cerca_cmd str_datetime repr_list join_non_list query categoria false w
        = (Ret (["Nessun libro trovato"], None), w').
Proof.
  intros F0 Hall.
  destruct (cerca_libri_nessuno query categoria None false
              (set_calls (S (calls w)) w)) as (w' & Hrun).
  { cbn [db set_calls]. eapply Forall_impl; [exact Hall|].
    intros d Hd. cbn beta. rewrite Hd. reflexivity. }
  exists w'. unfold cerca_cmd. unfold mbind, M_bind.
  rewrite (connect_database_ok w F0). cbn [negb]. rewrite Hrun.
  reflexivity.
Qed.

(** X20.  When the connection fails, [cerca] and [stats] print nothing and
    attempt nothing else: the ping is their only round-trip, and the
    connection error is logged. *)
Theorem commands_stop_when_connection_fails query categoria disponibile w :
  fault w (calls w) = true →
  let w' :=
    set_log ((segno_errore +:+ " Errore connessione MongoDB",
              StoreError (calls w)) :: log w)
            (set_calls (S (calls w)) w) in
  cerca_cmd str_datetime repr_list join_non_list query categoria disponibile w
  = (Ret ([], None), w') ∧
  stats_cmd repr_righe w = (Ret [], w').
Proof.
  intros F0. unfold cerca_cmd, stats_cmd, connect_database.
  unfold try_except, mbind, M_bind, mret, M_ret, store_read, logger_error.
  rewrite F0. split; reflexivity.
Qed.
End commands_facts.

Lemma stats_prints_zeros_on_store_failure_witness :
  ∃ w', stats_cmd Esempi.repr_righe (Sample.world_failing 3) =
        (Ret [segno_statistiche +:+ " STATISTICHE BIBLIOTECA";
              ripeti "=" 30;
              "Totale libri: 0";
              "Libri disponibili: 0";
              "Prestiti attivi: 0";
              "Utenti registrati: 0";
              "Prestiti scaduti: 0"], w').
Proof.
  apply (stats_prints_zeros_on_store_failure
           Esempi.repr_righe (Sample.world_failing 3) 2).
  - reflexivity.
  - lia.
  - reflexivity.
Defined.

Lemma cerca_without_flag_hides_available_books_witness :
  ∃ w', cerca_cmd Esempi.str_datetime Esempi.repr_list Esempi.join_non_list
          (Some "1984") None false Esempi.world_disponibili
        = (Ret (["Nessun libro trovato"], None), w').
Proof.
  apply (cerca_without_flag_hides_available_books
           Esempi.str_datetime Esempi.repr_list Esempi.join_non_list
           (Some "1984") None Esempi.world_disponibili).
  - reflexivity.
  - repeat constructor.
Defined.

Lemma commands_stop_when_connection_fails_witness :
  let w' :=
    set_log ((segno_errore +:+ " Errore connessione MongoDB",
              StoreError (calls (Sample.world_failing 0)))
             :: log (Sample.world_failing 0))
            (set_calls (S (calls (Sample.world_failing 0)))
               (Sample.world_failing 0)) in
  cerca_cmd Esempi.str_datetime Esempi.repr_list Esempi.join_non_list
    None None true (Sample.world_failing 0) = (Ret ([], None), w') ∧
  stats_cmd Esempi.repr_righe (Sample.world_failing 0) = (Ret [], w').
Proof.
  apply (commands_stop_when_connection_fails
           Esempi.str_datetime Esempi.repr_list Esempi.join_non_list
           Esempi.repr_righe None None true (Sample.world_failing 0)).
  reflexivity.
Defined.

(** ** [crea_prestito]: a negative period *)

(** The overdue figure of the statistics when the six round-trips
    complete. *)
Lemma statistiche_scaduti w :
  (∀ k, (k < 6)%nat → fault w (calls w + k)%nat = false) →
  ∃ m w',
    statistiche w = (Ret m, w') ∧
    m !! "prestiti_scaduti"
      = Some (SCount (conta Prestiti
                        (<["stato" := CEq (VStr "attivo")]>
                           {["data_scadenza" := CLt (VDate (clock w (ticks w)))]})
                        w)).
Proof.
  intros Hfault.
  assert (F0 : fault w (calls w) = false).
  { rewrite <- (Hfault 0%nat) by lia. f_equal. lia. }
  assert (F1 : fault w (S (calls w)) = false).
  { rewrite <- (Hfault 1%nat) by lia. f_equal. lia. }
  assert (F2 : fault w (S (S (calls w))) = false).
  { rewrite <- (Hfault 2%nat) by lia. f_equal. lia. }
  assert (F3 : fault w (S (S (S (calls w)))) = false).
  { rewrite <- (Hfault 3%nat) by lia. f_equal. lia. }
  assert (F4 : fault w (S (S (S (S (calls w))))) = false).
  { rewrite <- (Hfault 4%nat) by lia. f_equal. lia. }
  assert (F5 : fault w (S (S (S (S (S (calls w)))))) = false).
  { rewrite <- (Hfault 5%nat) by lia. f_equal. lia. }
  unfold_api.
  cbn [fault calls set_calls set_ticks ticks clock db text_search coll_get].
  rewrite F0. cbn [fault calls set_calls set_ticks ticks clock db text_search coll_get].
  rewrite F1. cbn [fault calls set_calls set_ticks ticks clock db text_search coll_get].
  rewrite F2. cbn [fault calls set_calls set_ticks ticks clock db text_search coll_get].
  rewrite F3. cbn [fault calls set_calls set_ticks ticks clock db text_search coll_get].
  rewrite F4. cbn [fault calls set_calls set_ticks ticks clock db text_search coll_get].
  rewrite F5. cbn [fault calls set_calls set_ticks ticks clock db text_search coll_get].
  eexists _, _. split; [reflexivity|]. unfold conta. cbn [coll_get].
  repeat (rewrite lookup_insert_ne by discriminate).
  apply lookup_insert_eq.
Qed.

(** X21.  The period is not checked for its sign: a call with negative
    [giorni] can succeed, and the loan it inserts is due before it was
    made.  Provided the clock does not run backwards between the call and
    the next statistics, those statistics already count it as overdue. *)
Theorem negative_period_loan_is_overdue_at_once
    utente_id libro_id giorni w id due :
  (crea_prestito utente_id libro_id giorni w).1 = Ret (LoanOk id due) →
  giorni < 0 →
  clock w (S (ticks w)) ≤ clock w (3 + ticks w)%nat →
  let w1 := (crea_prestito utente_id libro_id giorni w).2 in
  (∀ k, (k < 6)%nat → fault w1 (calls w1 + k)%nat = false) →
  due < clock w (S (ticks w)) ∧
  ∃ m w2 n,
    statistiche w1 = (Ret m, w2) ∧
    m !! "prestiti_scaduti" = Some (SCount n) ∧ (1 ≤ n)%nat.
Proof.
  destruct (crea_prestito utente_id libro_id giorni w) as [o w1] eqn:Hrun.
  cbn. intros -> Hneg Hclock Hfault.
  destruct (crea_prestito_success _ _ _ _ _ _ _ Hrun)
    as (lid & uid & libro & c & _ & _ & _ & _ & _ & _ & Hpre & -> &
        (Hck & _ & _ & Hts) & Hticks).
  assert (Hdue : clock w (S (ticks w)) + giorni * us_per_day
                 < clock w (S (ticks w))).
  { unfold us_per_day. lia. }
  split; [exact Hdue|].
  destruct (statistiche_scaduti w1 Hfault) as (m & w2 & Hst & Hsc).
  eexists m, w2, _. split; [exact Hst|]. split; [exact Hsc|].
  unfold conta. cbn [coll_get].
  rewrite Hpre, Hts, Hck, Hticks, List.filter_app, length_app.
  cbn [List.filter]. rewrite matches_pair by discriminate.
  cbn [clause_holds].
  destruct (prestito_inserito_fields w uid lid giorni)
    as (_ & _ & -> & -> & _).
  unfold field_eq, field_lt, value_lt.
  rewrite bool_decide_eq_true_2 by reflexivity.
  cbn [Nat.add] in *.
  assert (E : (millis (clock w (S (ticks w)) + giorni * us_per_day)
               <? clock w (S (S (S (ticks w))))) = true).
  { apply Z.ltb_lt.
    pose proof (millis_bounds (clock w (S (ticks w)) + giorni * us_per_day)).
    lia. }
  rewrite E. cbn. lia.
Qed.

Lemma negative_period_loan_is_overdue_at_once_witness :
  let w1 := (crea_prestito Sample.utente_attivo Sample.libro_1984 (-7)
               Sample.world).2 in
  Sample.t0 + 1000 + -7 * us_per_day
    < clock Sample.world (S (ticks Sample.world)) ∧
  ∃ m w2 n,
    statistiche w1 = (Ret m, w2) ∧
    m !! "prestiti_scaduti" = Some (SCount n) ∧ (1 ≤ n)%nat.
Proof.
  apply (negative_period_loan_is_overdue_at_once
           Sample.utente_attivo Sample.libro_1984 (-7) Sample.world
           (Sample.hex24 0xf000) (Sample.t0 + 1000 + -7 * us_per_day)).
  - vm_compute. reflexivity.
  - reflexivity.
  - vm_compute. discriminate.
  - intros k _. vm_compute. reflexivity.
Defined.

(** ** [cerca_libri]: no filter at all *)

Lemma lookup_map {A B} (f : A → B) (l : list A) (i : nat) :
  List.map f l !! i = f <$> l !! i.
Proof.
  revert i. induction l as [|x l IH]; intros [|i]; cbn; try reflexivity.
  apply IH.
Qed.

(** X22.  A search with no text, no category and no availability filter,
    whose round-trip completes, returns one summary per book of the
    store, in store order, each with the id, title, flag and count of its
    book. *)
Theorem unfiltered_search_lists_every_book autore w :
  fault w (calls w) = false →
  ∃ l w',
    cerca_libri None None autore None w = (Ret l, w') ∧
    length l = length (libri (db w)) ∧
    ∀ (i : nat) (b : doc), libri (db w) !! i = Some b →
      ∃ s : doc, l !! i = Some s ∧
        s !! "_id" = b !! "_id" ∧ s !! "titolo" = b !! "titolo" ∧
        s !! "disponibile" = b !! "disponibile" ∧
        s !! "numero_copie" = b !! "numero_copie".
Proof.
  intros F0. unfold_api. rewrite F0.
  eexists _, _. split; [reflexivity|].
  rewrite (filter_all_true (matches (text_search w) ∅))
    by (intros; apply matches_empty).
  split; [apply List.length_map|].
  intros i b Hi. eexists. split.
  - rewrite lookup_map, Hi. reflexivity.
  - repeat split; apply project_libro_lookup; set_solver.
Qed.

Lemma unfiltered_search_lists_every_book_witness :
  ∃ l w',
    cerca_libri None None None None Sample.world = (Ret l, w') ∧
    length l = length (libri (db Sample.world)) ∧
    ∀ (i : nat) (b : doc), libri (db Sample.world) !! i = Some b →
      ∃ s : doc, l !! i = Some s ∧
        s !! "_id" = b !! "_id" ∧ s !! "titolo" = b !! "titolo" ∧
        s !! "disponibile" = b !! "disponibile" ∧
        s !! "numero_copie" = b !! "numero_copie".
Proof.
  apply (unfiltered_search_lists_every_book None Sample.world).
  reflexivity.
Defined.
